(** * webview_proc: the controller/worker command protocol

    A shallow embedding of [src/webview_proc.py]: the [Response] envelope,
    the closed family of [Request] classes with their [process] methods, the
    worker's [_run_webview] / [handle_commands] poller and the synchronous
    [WebViewProcess] facade.

    Python objects are modelled by inductive types, mutable attributes by
    explicit state passing in a small state-and-exception monad, the duplex
    pipe by two message queues, and the window toolkit (pywebview) and the
    filesystem by an interface record and a finite map. *)

From Stdlib Require Import ZArith NArith Lia Strings.Byte Strings.Ascii Strings.String.
From stdpp Require Import base option list strings gmap.

Set Warnings "-register-all".

Local Open Scope string_scope.
Local Open Scope list_scope.
Local Open Scope Z_scope.

(** ** Python values *)

(** The payloads that travel in [Response.result] ([Any] in the source). *)
Inductive pyval : Type :=
  | PNone
  | PBool (b : bool)
  | PInt (z : Z)
  | PStr (s : string)
  | PList (l : list pyval)
  | PTuple (l : list pyval).

(** Python truth value testing ([bool(v)]). *)
Definition py_truthy (v : pyval) : bool :=
  match v with
  | PNone => false
  | PBool b => b
  | PInt z => negb (z =? 0)
  | PStr s => negb (String.eqb s "")
  | PList l | PTuple l => match l with [] => false | _ :: _ => true end
  end.

(** Truth value of a [str]: only the empty string is falsy. *)
Definition str_truthy (s : string) : bool := negb (String.eqb s "").

(** Truth value of a [str | None] attribute. *)
Definition opt_str_truthy (o : option string) : bool :=
  match o with
  | None => false
  | Some s => str_truthy s
  end.

(** [str(x)] for a [str | None] value, as an f-string prints it. *)
Definition py_str_opt (o : option string) : string :=
  match o with
  | None => "None"
  | Some s => s
  end.

(** ** Exceptions and outcomes *)

Inductive exn_class : Type :=
  | RuntimeError
  | WebViewException
  | TypeError
  | OSError
  | UnicodeEncodeError
  | IndexError
  | ToolkitError.        (* any other [Exception] raised inside pywebview *)

(** An exception instance, of a class under [Exception], which is what the
    module's [except Exception] handlers catch; [exn_msg] is what [str(e)]
    returns.  Signals that are not under [Exception] ([KeyboardInterrupt],
    [SystemExit]) are not among these and are not followed here. *)
Record exn : Type := Exn { exn_cls : exn_class; exn_msg : string }.

(** The result of running a piece of Python: it returns, it raises, or it
    never comes back (a [recv] on a pipe nobody writes to, the GUI loop). *)
Inductive outcome (A : Type) : Type :=
  | Return (a : A)
  | Raise (e : exn)
  | Blocked.
Arguments Return {A} a.
Arguments Raise {A} e.
Arguments Blocked {A}.

(** ** A state-and-exception monad *)

Definition M (S A : Type) : Type := S -> outcome A * S.

Definition ret {S A} (a : A) : M S A := fun s => (Return a, s).

Definition bind {S A B} (m : M S A) (k : A -> M S B) : M S B :=
  fun s =>
    match m s with
    | (Return a, s') => k a s'
    | (Raise e, s') => (Raise e, s')
    | (Blocked, s') => (Blocked, s')
    end.

Definition raise {S A} (e : exn) : M S A := fun s => (Raise e, s).
Definition block {S A} : M S A := fun s => (Blocked, s).
Definition gets {S A} (f : S -> A) : M S A := fun s => (Return (f s), s).
Definition modify {S} (f : S -> S) : M S unit := fun s => (Return tt, f s).

(** [try: body / except Exception as e: handler e]. *)
Definition try_except {S A} (body : M S A) (handler : exn -> M S A) : M S A :=
  fun s =>
    match body s with
    | (Raise e, s') => handler e s'
    | r => r
    end.

(** [try: body / finally: fin].  The [finally] block runs when the body
    returns or raises; a body that never comes back never reaches it. *)
Definition try_finally {S A} (body : M S A) (fin : M S unit) : M S A :=
  fun s =>
    match body s with
    | (Blocked, s') => (Blocked, s')
    | (r, s') =>
        match fin s' with
        | (Return _, s'') => (r, s'')
        | (Raise e, s'') => (Raise e, s'')
        | (Blocked, s'') => (Blocked, s'')
        end
    end.

Definition when {S} (c : bool) (m : M S unit) : M S unit :=
  if c then m else ret tt.

Declare Scope py_scope.
Delimit Scope py_scope with py.
Notation "x <- m ;; k" := (bind m (fun x => k))
  (at level 100, m at next level, k at level 200, right associativity)
  : py_scope.
Notation "m ;; k" := (bind m (fun _ => k))
  (at level 100, k at level 200, right associativity) : py_scope.
Local Open Scope py_scope.

(** ** Request/Response dataclasses *)

Record Response : Type := mkResponse {
  request_id : Z;             (* defaults to 0 *)
  result : pyval;             (* defaults to None *)
  error : option string       (* defaults to None *)
}.

(** What [SaveFileRequest.file_contents] can hold when the request is on the
    wire, so objects that pickle: a [str] (a sequence of code points), a
    [bytes] or [bytearray], or an object of some other type that pickles
    (a tuple, a number), of which only the type's name matters.  Objects
    that do not pickle never leave the controller: see [pyobject]. *)
Inductive contents : Type :=
  | Text (cps : list N)
  | Bytes (bs : list Byte.byte)
  | Other (tyname : string).

Inductive Request : Type :=
  | CloseRequest (rid : Z)
  | ResizeRequest (rid : Z) (width height : Z)
  | SetTitleRequest (rid : Z) (title : string)
  | ToggleFullscreenRequest (rid : Z)
  | SetMaximizedRequest (rid : Z) (maximized : bool)
  | PickFileRequest (rid : Z) (file_types : list string) (multiple : bool)
  | SaveFileRequest (rid : Z) (file_contents : contents) (file_name : string)
      (directory : option string)
  | EvaluateJavascriptRequest (rid : Z) (js_code : string)
  | PingRequest (rid : Z).

(** The [request_id] attribute every [Request] carries. *)
Definition req_id (r : Request) : Z :=
  match r with
  | CloseRequest n | ResizeRequest n _ _ | SetTitleRequest n _
  | ToggleFullscreenRequest n | SetMaximizedRequest n _
  | PickFileRequest n _ _ | SaveFileRequest n _ _ _
  | EvaluateJavascriptRequest n _ | PingRequest n => n
  end.

(** The configuration fields of a [WebViewProcess] instance as
    [_run_webview] finds them, that is after [__post_init__]: [icon_path]
    holds the text [str()] gives for the [pathlib.Path] it was turned into.
    Widths and heights are kept integral, so [int()] of them is the number
    itself; [None] is [None]. *)
Record Config : Type := mkConfig {
  url : string;
  title : string;
  width : option Z;
  height : option Z;
  icon_path : option string;
  maximized : bool;
  fullscreen : bool;
  gui : option string;
  debug : bool
}.

(** ** The controller: [WebViewProcess] *)

(** A [multiprocessing.Process] object as the controller sees it. *)
Record Process : Type := mkProcess {
  is_alive : bool;              (* what [Process.is_alive()] answers *)
  inherited_argv : list string  (* the parent's [sys.argv] when it was started *)
}.

Section Facade.

(** The far end of the pipe: [P] is the state of whatever runs in the
    spawned process, [peer_boot] gives the messages it writes when it is
    started (with the configuration and the [sys.argv] it inherits) and
    [peer_recv] the messages it writes in reaction to one request.  The
    controller has one call in flight at a time and reads nothing before
    it has written its request, so delivering the reaction at the moment
    of the [send] loses no behaviour the controller can observe. *)
Context {P : Type}.
Variable peer_boot : Config -> list string -> P -> list Response * P.
Variable peer_recv : Request -> P -> list Response * P.

Record Ctl : Type := mkCtl {
  config : Config;
  process : option Process;
  _is_alive : bool;
  _request_id : Z;
  (* the controller process's [sys.argv] *)
  sys_argv : list string;
  (* [parent_conn]: everything written so far, and what is there to read *)
  conn_sent : list Request;
  conn_inbox : list Response;
  peer : P;
  (* whether the operating system refuses to start a process *)
  spawn_failure : option exn;
  (* whether the worker ever terminates, so that [Process.join()] returns *)
  worker_exits : bool;
  (* history: the values [_new_request_id] has returned, oldest first *)
  issued : list Z
}.

(** The instance right after [__init__]/[__post_init__]. *)
Definition new_instance (cfg : Config) (argv : list string) (p : P)
    (os : option exn) (ex : bool) : Ctl :=
  {| config := cfg; process := None; _is_alive := false; _request_id := 0;
     sys_argv := argv; conn_sent := []; conn_inbox := []; peer := p;
     spawn_failure := os; worker_exits := ex; issued := [] |}.

Definition set_process (v : option Process) (st : Ctl) : Ctl :=
  {| config := config st; process := v; _is_alive := _is_alive st;
     _request_id := _request_id st; sys_argv := sys_argv st;
     conn_sent := conn_sent st; conn_inbox := conn_inbox st;
     peer := peer st; spawn_failure := spawn_failure st;
     worker_exits := worker_exits st; issued := issued st |}.

Definition set_is_alive (v : bool) (st : Ctl) : Ctl :=
  {| config := config st; process := process st; _is_alive := v;
     _request_id := _request_id st; sys_argv := sys_argv st;
     conn_sent := conn_sent st; conn_inbox := conn_inbox st;
     peer := peer st; spawn_failure := spawn_failure st;
     worker_exits := worker_exits st; issued := issued st |}.

Definition set_argv (v : list string) (st : Ctl) : Ctl :=
  {| config := config st; process := process st; _is_alive := _is_alive st;
     _request_id := _request_id st; sys_argv := v;
     conn_sent := conn_sent st; conn_inbox := conn_inbox st;
     peer := peer st; spawn_failure := spawn_failure st;
     worker_exits := worker_exits st; issued := issued st |}.

Definition set_inbox (v : list Response) (st : Ctl) : Ctl :=
  {| config := config st; process := process st; _is_alive := _is_alive st;
     _request_id := _request_id st; sys_argv := sys_argv st;
     conn_sent := conn_sent st; conn_inbox := v;
     peer := peer st; spawn_failure := spawn_failure st;
     worker_exits := worker_exits st; issued := issued st |}.

(** [self._request_id += 1], remembered in the history. *)
Definition bump_request_id (st : Ctl) : Ctl :=
  {| config := config st; process := process st; _is_alive := _is_alive st;
     _request_id := _request_id st + 1; sys_argv := sys_argv st;
     conn_sent := conn_sent st; conn_inbox := conn_inbox st;
     peer := peer st; spawn_failure := spawn_failure st;
     worker_exits := worker_exits st;
     issued := issued st ++ [_request_id st + 1] |}.

(** [parent_conn.send(msg)]: the message is on the wire and the peer's
    reaction to it queues up behind what is already readable. *)
Definition deliver (msg : Request) (st : Ctl) : Ctl :=
  let '(replies, p') := peer_recv msg (peer st) in
  {| config := config st; process := process st; _is_alive := _is_alive st;
     _request_id := _request_id st; sys_argv := sys_argv st;
     conn_sent := conn_sent st ++ [msg];
     conn_inbox := conn_inbox st ++ replies;
     peer := p'; spawn_failure := spawn_failure st;
     worker_exits := worker_exits st; issued := issued st |}.

(** [Process.start()] succeeding: the child runs with the parent's current
    [sys.argv] and whatever it writes while booting becomes readable. *)
Definition boot (st : Ctl) : Ctl :=
  let '(msgs, p') := peer_boot (config st) (sys_argv st) (peer st) in
  {| config := config st;
     process := Some (mkProcess true (sys_argv st));
     _is_alive := _is_alive st;
     _request_id := _request_id st; sys_argv := sys_argv st;
     conn_sent := conn_sent st;
     conn_inbox := conn_inbox st ++ msgs;
     peer := p'; spawn_failure := spawn_failure st;
     worker_exits := worker_exits st; issued := issued st |}.

(** Every [Request] of this model pickles (see [contents]), so the send
    goes through; the send of a request that does not pickle is
    [parent_conn_send_unpicklable]. *)
Definition parent_conn_send (msg : Request) : M Ctl unit := modify (deliver msg).

(** [_new_request_id]: "Generate a new request ID for tracking requests." *)
Definition _new_request_id : M Ctl Z :=
  modify bump_request_id ;;
  gets _request_id.

(** What a matching [response] does to [_send_command]. *)
Definition complete (response : Response) : outcome pyval :=
  match error response with
  | Some msg =>
      if str_truthy msg then Raise (Exn WebViewException msg)
      else Return (result response)
  | None => Return (result response)
  end.

(** The [while True] loop of [_send_command], run against the readable
    messages; it gives back what is left unread.  Every turn consumes one
    message, and [recv] on an empty pipe does not come back: the instance
    keeps [child_conn] open itself, so the pipe never reports its end. *)
Fixpoint _send_command_loop (n : Z) (inbox : list Response)
    : outcome pyval * list Response :=
  match inbox with
  | [] => (Blocked, [])
  | response :: rest =>
      if request_id response =? n then (complete response, rest)
      else _send_command_loop n rest
  end.

Definition _send_command (request_obj : Request) : M Ctl pyval :=
  alive <- gets _is_alive ;;
  if negb alive then
    raise (Exn RuntimeError "Webview process is not running.")
  else
    parent_conn_send request_obj ;;
    fun st =>
      let '(r, rest) := _send_command_loop (req_id request_obj) (conn_inbox st) in
      (r, set_inbox rest st).

(** The [while True] loop of [_wait_for_window] for the ping numbered [n]. *)
Fixpoint _wait_for_window_loop (n : Z) (inbox : list Response)
    : outcome unit * list Response :=
  match inbox with
  | [] => (Blocked, [])
  | response :: rest =>
      if request_id response =? 0 then
        (Raise (Exn RuntimeError
                  ("Webview initialization failed: "
                     +:+ py_str_opt (error response))), rest)
      else if request_id response =? n then
        if opt_str_truthy (error response) then
          _wait_for_window_loop n rest
        else
          match result response with
          | PBool true => (Return tt, rest)
          | _ => _wait_for_window_loop n rest
          end
      else _wait_for_window_loop n rest
  end.

Definition _wait_for_window : M Ctl unit :=
  rid <- _new_request_id ;;
  let req := PingRequest rid in
  parent_conn_send req ;;
  fun st =>
    let '(r, rest) := _wait_for_window_loop (req_id req) (conn_inbox st) in
    (r, set_inbox rest st).

(** [self.process = Process(...)] followed by [self.process.start()]. *)
Definition spawn : M Ctl unit :=
  argv <- gets sys_argv ;;
  modify (set_process (Some (mkProcess false argv))) ;;
  os <- gets spawn_failure ;;
  match os with
  | Some e => raise e
  | None => modify boot
  end.

(** [self.process is not None and self.process.is_alive()] *)
Definition already_running (st : Ctl) : bool :=
  match process st with
  | Some pr => is_alive pr
  | None => false
  end.

Definition start : M Ctl unit :=
  running <- gets already_running ;;
  if running then
    raise (Exn RuntimeError "Webview process is already running.")
  else
    original_argv <- gets sys_argv ;;
    modify (set_argv (take 1 original_argv)) ;;
    try_finally
      (spawn ;;
       modify (set_is_alive true) ;;
       _wait_for_window)
      (modify (set_argv original_argv)).

Definition close : M Ctl pyval :=
  rid <- _new_request_id ;;
  _send_command (CloseRequest rid) ;;
  modify (set_is_alive false) ;;
  ret PNone.

(** [width] and [height] are taken integral, so [int(width)] is [width]. *)
Definition resize (width height : Z) : M Ctl pyval :=
  rid <- _new_request_id ;;
  _send_command (ResizeRequest rid width height) ;;
  ret PNone.

Definition set_title (title : string) : M Ctl pyval :=
  rid <- _new_request_id ;;
  _send_command (SetTitleRequest rid title) ;;
  ret PNone.

Definition toggle_fullscreen : M Ctl pyval :=
  rid <- _new_request_id ;;
  _send_command (ToggleFullscreenRequest rid) ;;
  ret PNone.

Definition set_maximized (maximized : bool) : M Ctl pyval :=
  rid <- _new_request_id ;;
  _send_command (SetMaximizedRequest rid maximized) ;;
  ret PNone.

(** [v[0]] for a value whose truth value is true. *)
Definition py_first (v : pyval) : outcome pyval :=
  match v with
  | PList (x :: _) | PTuple (x :: _) => Return x
  | PStr (String c _) => Return (PStr (String c ""))
  | PList [] => Raise (Exn IndexError "list index out of range")
  | PTuple [] => Raise (Exn IndexError "tuple index out of range")
  | PStr "" => Raise (Exn IndexError "string index out of range")
  | PNone => Raise (Exn TypeError "'NoneType' object is not subscriptable")
  | PBool _ => Raise (Exn TypeError "'bool' object is not subscriptable")
  | PInt _ => Raise (Exn TypeError "'int' object is not subscriptable")
  end.

(** [result if multiple else result[0] if result else None]. *)
Definition pick_file_result (multiple : bool) (result : pyval)
    : outcome pyval :=
  if multiple then Return result
  else if py_truthy result then py_first result
  else Return PNone.

Definition pick_file (file_types : option (list string)) (multiple : bool)
    : M Ctl pyval :=
  rid <- _new_request_id ;;
  result <- _send_command
    (PickFileRequest rid
       (match file_types with
        | Some (x :: l) => x :: l
        | Some [] | None => []
        end)
       multiple) ;;
  fun st => (pick_file_result multiple result, st).

Definition save_file (file_contents : contents) (file_name : string)
    (directory : option string) : M Ctl pyval :=
  rid <- _new_request_id ;;
  let req :=
    SaveFileRequest rid file_contents file_name
      (if opt_str_truthy directory then directory else None) in
  result <- _send_command req ;;
  ret result.

Definition evaluate_javascript (js_code : string) : M Ctl pyval :=
  rid <- _new_request_id ;;
  let req := EvaluateJavascriptRequest rid js_code in
  result <- _send_command req ;;
  ret result.

(** The worker process is gone. *)
Definition reap (st : Ctl) : Ctl :=
  set_process
    (option_map (fun pr => mkProcess false (inherited_argv pr)) (process st))
    st.

(** [self.process.terminate()] *)
Definition process_terminate : M Ctl unit := modify reap.

(** [self.process.join()] comes back once the worker has terminated. *)
Definition process_join : M Ctl unit :=
  p <- gets process ;;
  ex <- gets worker_exits ;;
  if match p with Some pr => negb (is_alive pr) | None => true end then ret tt
  else if ex then modify reap
  else block.

Definition join : M Ctl unit :=
  p <- gets process ;;
  alive <- gets _is_alive ;;
  if match p with Some _ => alive | None => false end then
    process_join ;;
    modify (set_is_alive false)
  else ret tt.

Definition __del__ : M Ctl unit :=
  p <- gets process ;;
  alive <- gets _is_alive ;;
  if match p with Some _ => alive | None => false end then
    close ;;
    process_terminate ;;
    process_join
  else ret tt.

(** The command-sending methods of the facade, as data. *)
Inductive method : Type :=
  | m_close
  | m_resize (width height : Z)
  | m_set_title (title : string)
  | m_toggle_fullscreen
  | m_set_maximized (maximized : bool)
  | m_pick_file (file_types : option (list string)) (multiple : bool)
  | m_save_file (file_contents : contents) (file_name : string)
      (directory : option string)
  | m_evaluate_javascript (js_code : string).

Definition invoke (m : method) : M Ctl pyval :=
  match m with
  | m_close => close
  | m_resize w h => resize w h
  | m_set_title t => set_title t
  | m_toggle_fullscreen => toggle_fullscreen
  | m_set_maximized b => set_maximized b
  | m_pick_file ft mu => pick_file ft mu
  | m_save_file c n d => save_file c n d
  | m_evaluate_javascript js => evaluate_javascript js
  end.

(** The command a method builds once it has drawn the identifier [rid]. *)
Definition request_of (m : method) (rid : Z) : Request :=
  match m with
  | m_close => CloseRequest rid
  | m_resize w h => ResizeRequest rid w h
  | m_set_title t => SetTitleRequest rid t
  | m_toggle_fullscreen => ToggleFullscreenRequest rid
  | m_set_maximized b => SetMaximizedRequest rid b
  | m_pick_file ft mu =>
      PickFileRequest rid
        (match ft with
         | Some (x :: l) => x :: l
         | Some [] | None => []
         end) mu
  | m_save_file c n d =>
      SaveFileRequest rid c n (if opt_str_truthy d then d else None)
  | m_evaluate_javascript js => EvaluateJavascriptRequest rid js
  end.

(** What a method makes of the outcome of its [_send_command]. *)
Definition conclude (m : method) (r : outcome pyval) : outcome pyval :=
  match r with
  | Return v =>
      match m with
      | m_pick_file _ mu => pick_file_result mu v
      | m_save_file _ _ _ | m_evaluate_javascript _ => Return v
      | _ => Return PNone
      end
  | Raise e => Raise e
  | Blocked => Blocked
  end.

(** What a method does to the instance after its [_send_command]. *)
Definition settle (m : method) (r : outcome pyval) (st : Ctl) : Ctl :=
  match m, r with
  | m_close, Return _ => set_is_alive false st
  | _, _ => st
  end.

(** What the handshake of a [start] that gets to spawn its worker is going
    to read: what was readable already, what the worker writes while it
    boots with the reset [sys.argv], and its reaction to the ping. *)
Definition handshake_stream (st : Ctl) : list Response :=
  let '(msgs, p1) := peer_boot (config st) (take 1 (sys_argv st)) (peer st) in
  let '(replies, _) := peer_recv (PingRequest (_request_id st + 1)) p1 in
  conn_inbox st ++ msgs ++ replies.

(** Any public call on the instance. *)
Inductive call : Type :=
  | c_start
  | c_join
  | c_del
  | c_method (m : method).

Definition perform (c : call) : M Ctl pyval :=
  match c with
  | c_start => start ;; ret PNone
  | c_join => join ;; ret PNone
  | c_del => __del__ ;; ret PNone
  | c_method m => invoke m
  end.

(** A caller making the calls of [cs] one after the other, going on after
    a call that raises (it may catch the exception) and stuck for good in
    a call that does not come back. *)
Fixpoint perform_all (cs : list call) (st : Ctl) : Ctl :=
  match cs with
  | [] => st
  | c :: cs' =>
      match perform c st with
      | (Blocked, st') => st'
      | (_, st') => perform_all cs' st'
      end
  end.

End Facade.

Arguments Ctl : clear implicits.

(** ** Text files *)

Definition byte_of_N (n : N) : Byte.byte :=
  match Byte.of_N n with
  | Some b => b
  | None => Byte.x00
  end.

(** The UTF-8 encoding of one code point under the [strict] error handler:
    surrogates and numbers past U+10FFFF have none. *)
Definition utf8_encode_char (c : N) : option (list Byte.byte) :=
  (if c <? 0x80 then
     Some [byte_of_N c]
   else if c <? 0x800 then
     Some [byte_of_N (N.lor 0xC0 (N.shiftr c 6));
           byte_of_N (N.lor 0x80 (N.land c 0x3F))]
   else if (0xD800 <=? c) && (c <=? 0xDFFF) then
     None
   else if c <? 0x10000 then
     Some [byte_of_N (N.lor 0xE0 (N.shiftr c 12));
           byte_of_N (N.lor 0x80 (N.land (N.shiftr c 6) 0x3F));
           byte_of_N (N.lor 0x80 (N.land c 0x3F))]
   else if c <? 0x110000 then
     Some [byte_of_N (N.lor 0xF0 (N.shiftr c 18));
           byte_of_N (N.lor 0x80 (N.land (N.shiftr c 12) 0x3F));
           byte_of_N (N.lor 0x80 (N.land (N.shiftr c 6) 0x3F));
           byte_of_N (N.lor 0x80 (N.land c 0x3F))]
   else None)%N.

Fixpoint utf8_encode (cps : list N) : option (list Byte.byte) :=
  match cps with
  | [] => Some []
  | c :: rest =>
      match utf8_encode_char c, utf8_encode rest with
      | Some bs, Some bs' => Some (bs ++ bs')
      | _, _ => None
      end
  end.

(** A text file opened with [newline=None] writes the platform's line
    separator for every ["\n"] (code point 10). *)
Definition translate_newlines (linesep : list N) (cps : list N) : list N :=
  flat_map (fun c => if (c =? 10)%N then linesep else [c]) cps.

(** The code points of an ASCII literal, for examples. *)
Definition text_of (s : string) : list N :=
  map N_of_ascii (String.list_ascii_of_string s).

Definition bytes_of (s : string) : list Byte.byte := String.list_byte_of_string s.

(** ** The window toolkit and the worker's world *)

Inductive dialog_type : Type := OPEN_DIALOG | SAVE_DIALOG.

(** What [Window.create_file_dialog] hands back: [None], one path, or a
    sequence of paths (of [str], so that [str(p)] is [p]). *)
Inductive dialog_result : Type :=
  | DNone
  | DStr (path : string)
  | DSeq (paths : list string).

Definition dialog_truthy (d : dialog_result) : bool :=
  match d with
  | DNone => false
  | DStr s => str_truthy s
  | DSeq l => match l with [] => false | _ :: _ => true end
  end.

(** The part of pywebview the module calls, over an abstract toolkit state
    [G].  Each call may return, raise or never come back. *)
Record Toolkit (G : Type) : Type := mkToolkit {
  create_window : string -> string -> Z -> Z -> M G unit;
  window_destroy : M G unit;
  window_resize : Z -> Z -> M G unit;
  window_set_title : string -> M G unit;
  window_toggle_fullscreen : M G unit;
  window_maximize : M G unit;
  window_restore : M G unit;
  (* dialog_type, directory, allow_multiple, save_filename, file_types *)
  window_create_file_dialog :
    dialog_type -> string -> bool -> string -> list string -> M G dialog_result;
  window_evaluate_js : string -> M G pyval;
  (* gui, debug, icon: the blocking event loop *)
  webview_start : option string -> bool -> option string -> M G unit
}.
Arguments create_window {G} _ _ _ _ _.
Arguments window_destroy {G} _.
Arguments window_resize {G} _ _ _.
Arguments window_set_title {G} _ _.
Arguments window_toggle_fullscreen {G} _.
Arguments window_maximize {G} _.
Arguments window_restore {G} _.
Arguments window_create_file_dialog {G} _ _ _ _ _ _.
Arguments window_evaluate_js {G} _ _.
Arguments webview_start {G} _ _ _ _.

(** What arrives at the worker's end of the pipe, one entry per turn of the
    poller. *)
Inductive conn_event : Type :=
  | Quiet                            (* [poll(0.1)] timed out *)
  | Incoming (msg : option Request)  (* a message, [None] being the sentinel *)
  | Hangup.                          (* the pipe failed *)

(** How a run of the poller thread over some events leaves it. *)
Inductive thread_status : Type :=
  | Waiting    (* in the loop, at [conn.poll] *)
  | Finished.  (* left the loop through [break] *)

Section Worker.

Context {G : Type}.
Variable tk : Toolkit G.
(** [os.linesep] of the platform, as code points. *)
Variable linesep : list N.

Record Worker : Type := mkWorker {
  toolkit_state : G;
  (* the filesystem: contents by path, and the paths [open] refuses *)
  files : gmap string (list Byte.byte);
  denied : gset string;
  (* the worker process's [sys.argv] *)
  worker_argv : list string;
  (* [conn]: what the worker has written, and whether it is still usable *)
  conn_out : list Response;
  conn_ok : bool;
  (* whether the poller thread is in its loop *)
  polling : bool
}.

Definition set_toolkit_state (g : G) (wk : Worker) : Worker :=
  {| toolkit_state := g; files := files wk; denied := denied wk;
     worker_argv := worker_argv wk; conn_out := conn_out wk;
     conn_ok := conn_ok wk; polling := polling wk |}.

Definition set_files (fs : gmap string (list Byte.byte)) (wk : Worker)
    : Worker :=
  {| toolkit_state := toolkit_state wk; files := fs; denied := denied wk;
     worker_argv := worker_argv wk; conn_out := conn_out wk;
     conn_ok := conn_ok wk; polling := polling wk |}.

Definition set_worker_argv (v : list string) (wk : Worker) : Worker :=
  {| toolkit_state := toolkit_state wk; files := files wk;
     denied := denied wk; worker_argv := v; conn_out := conn_out wk;
     conn_ok := conn_ok wk; polling := polling wk |}.

Definition push_out (r : Response) (wk : Worker) : Worker :=
  {| toolkit_state := toolkit_state wk; files := files wk;
     denied := denied wk; worker_argv := worker_argv wk;
     conn_out := conn_out wk ++ [r]; conn_ok := conn_ok wk;
     polling := polling wk |}.

Definition set_conn_ok (v : bool) (wk : Worker) : Worker :=
  {| toolkit_state := toolkit_state wk; files := files wk;
     denied := denied wk; worker_argv := worker_argv wk;
     conn_out := conn_out wk; conn_ok := v; polling := polling wk |}.

Definition set_polling (v : bool) (wk : Worker) : Worker :=
  {| toolkit_state := toolkit_state wk; files := files wk;
     denied := denied wk; worker_argv := worker_argv wk;
     conn_out := conn_out wk; conn_ok := conn_ok wk; polling := v |}.

(** A toolkit call made from the worker. *)
Definition call_toolkit {A} (m : M G A) : M Worker A :=
  fun wk =>
    let '(r, g) := m (toolkit_state wk) in
    (r, set_toolkit_state g wk).

(** [conn.send(response)] *)
Definition conn_send (r : Response) : M Worker unit :=
  ok <- gets conn_ok ;;
  if ok then modify (push_out r)
  else raise (Exn OSError "handle is closed").

(** [conn.close()] *)
Definition conn_close : M Worker unit := modify (set_conn_ok false).

(** [open(destination, mode)] for writing: the file is created or emptied. *)
Definition open_for_writing (destination : string) : M Worker unit :=
  no <- gets denied ;;
  if decide (destination ∈ no) then
    raise (Exn OSError ("cannot open " +:+ destination))
  else
    modify (fun wk => set_files (<[destination := []]> (files wk)) wk).

(** [f.write(s)] on a file opened with ['w'] and [encoding='utf-8'], up to
    the close at the end of the [with] block.  The text of the encoder's
    error is abridged (Python names the character and its position). *)
Definition write_text (destination : string) (cps : list N) : M Worker unit :=
  match utf8_encode (translate_newlines linesep cps) with
  | Some bs =>
      modify (fun wk => set_files (<[destination := bs]> (files wk)) wk)
  | None =>
      raise (Exn UnicodeEncodeError
               "'utf-8' codec can't encode character: surrogates not allowed")
  end.

(** [f.write(b)] on a file opened with ['wb']. *)
Definition write_binary (destination : string) (c : contents)
    : M Worker unit :=
  match c with
  | Bytes bs =>
      modify (fun wk => set_files (<[destination := bs]> (files wk)) wk)
  | Text _ =>
      raise (Exn TypeError "a bytes-like object is required, not 'str'")
  | Other tyname =>
      raise (Exn TypeError
               ("a bytes-like object is required, not '" +:+ tyname +:+ "'"))
  end.

(** *** The [process] methods *)

Definition CloseRequest_process (rid : Z) : M Worker Response :=
  call_toolkit (window_destroy tk) ;;
  ret (mkResponse rid (PBool true) None).

Definition ResizeRequest_process (rid width height : Z) : M Worker Response :=
  call_toolkit (window_resize tk width height) ;;
  ret (mkResponse rid (PBool true) None).

Definition SetTitleRequest_process (rid : Z) (title : string)
    : M Worker Response :=
  call_toolkit (window_set_title tk title) ;;
  ret (mkResponse rid (PBool true) None).

Definition ToggleFullscreenRequest_process (rid : Z) : M Worker Response :=
  call_toolkit (window_toggle_fullscreen tk) ;;
  ret (mkResponse rid (PBool true) None).

Definition SetMaximizedRequest_process (rid : Z) (maximized : bool)
    : M Worker Response :=
  (if maximized then call_toolkit (window_maximize tk)
   else call_toolkit (window_restore tk)) ;;
  ret (mkResponse rid (PBool true) None).

(** The f-string of [PickFileRequest.process]: the extension, a space and
    the glob for it in parentheses. *)
Definition file_type_filter (ext : string) : string :=
  ext +:+ " (*." +:+ ext +:+ ")".

(** The filters [PickFileRequest.process] hands to the dialog: one per
    extension, or none when there are no extensions. *)
Definition dialog_filters (file_types : list string) : list string :=
  match file_types with
  | [] => []
  | _ :: _ => map file_type_filter file_types
  end.

(** The [result] expression of [PickFileRequest.process]. *)
Definition picked_paths (paths : dialog_result) : list string :=
  match paths with
  | DStr s => [s]
  | DSeq l => if dialog_truthy (DSeq l) then l else []
  | DNone => []
  end.

Definition PickFileRequest_process (rid : Z) (file_types : list string)
    (multiple : bool) : M Worker Response :=
  let file_types := dialog_filters file_types in
  paths <- call_toolkit
    (window_create_file_dialog tk OPEN_DIALOG "" multiple "" file_types) ;;
  let result := picked_paths paths in
  ret (mkResponse rid (PList (map PStr result)) None).

Definition SaveFileRequest_process (rid : Z) (file_contents : contents)
    (file_name : string) (directory : option string) : M Worker Response :=
  destinations <- call_toolkit
    (window_create_file_dialog tk SAVE_DIALOG
       (if opt_str_truthy directory then py_str_opt directory else "")
       false file_name []) ;;
  if negb (dialog_truthy destinations) then
    ret (mkResponse rid (PBool false) None)
  else
    let destination :=
      match destinations with
      | DStr s => s
      | DSeq l => hd "" l
      | DNone => ""
      end in
    match file_contents with
    | Text cps =>
        open_for_writing destination ;;
        write_text destination cps
    | _ =>
        open_for_writing destination ;;
        write_binary destination file_contents
    end ;;
    ret (mkResponse rid (PBool true) None).

Definition EvaluateJavascriptRequest_process (rid : Z) (js_code : string)
    : M Worker Response :=
  result <- call_toolkit (window_evaluate_js tk js_code) ;;
  ret (mkResponse rid result None).

Definition PingRequest_process (rid : Z) : M Worker Response :=
  ret (mkResponse rid (PBool true) None).

(** [request.process(window, conn)], by the class of [request]. *)
Definition process_request (request : Request) : M Worker Response :=
  match request with
  | CloseRequest rid => CloseRequest_process rid
  | ResizeRequest rid w h => ResizeRequest_process rid w h
  | SetTitleRequest rid t => SetTitleRequest_process rid t
  | ToggleFullscreenRequest rid => ToggleFullscreenRequest_process rid
  | SetMaximizedRequest rid b => SetMaximizedRequest_process rid b
  | PickFileRequest rid ft mu => PickFileRequest_process rid ft mu
  | SaveFileRequest rid c n d => SaveFileRequest_process rid c n d
  | EvaluateJavascriptRequest rid js => EvaluateJavascriptRequest_process rid js
  | PingRequest rid => PingRequest_process rid
  end.

(** *** The poller *)

(** The inner [try]/[except] of [handle_commands] and the [send]. *)
Definition answer (request : Request) : M Worker unit :=
  response <- try_except (process_request request)
    (fun e => ret (mkResponse (req_id request) PNone (Some (exn_msg e)))) ;;
  conn_send response.

(** One turn of the [while True] loop, inside the outer [try]: [true] to go
    round again, [false] for [break]. *)
Definition poll_turn (ev : conn_event) : M Worker bool :=
  ok <- gets conn_ok ;;
  match ev with
  | Hangup => raise (Exn OSError "connection lost")
  | Quiet =>
      if ok then ret true else raise (Exn OSError "handle is closed")
  | Incoming msg =>
      if ok then
        match msg with
        | None => ret false
        | Some request => answer request ;; ret true
        end
      else raise (Exn OSError "handle is closed")
  end.

(** [handle_commands], run over the events that reach the worker. *)
Fixpoint handle_commands (evs : list conn_event) : M Worker thread_status :=
  match evs with
  | [] => ret Waiting
  | ev :: evs' =>
      continue <- try_except (poll_turn ev) (fun _ => ret false) ;;
      if continue then handle_commands evs'
      else modify (set_polling false) ;; ret Finished
  end.

(** [threading.Thread(target=..., daemon=True).start()]: the thread's own
    fate (it may end, or hang inside the toolkit) stays with the thread. *)
Definition start_thread {A} (body : M Worker A) : M Worker unit :=
  fun wk =>
    match body (set_polling true wk) with
    | (Return _, wk') => (Return tt, wk')
    | (_, wk') => (Return tt, set_polling false wk')
    end.

(** [_run_webview]; [evs] is what reaches the poller while the event loop
    of [webview.start] has the main thread. *)
Definition _run_webview (self : Config) (evs : list conn_event)
    : M Worker unit :=
  original_argv <- gets worker_argv ;;
  modify (set_worker_argv (take 1 original_argv)) ;;
  try_finally
    (try_except
       (call_toolkit
          (create_window tk (title self) (url self)
             (match width self with
              | Some w => if w =? 0 then 800 else w
              | None => 800
              end)
             (match height self with
              | Some h => if h =? 0 then 600 else h
              | None => 600
              end)) ;;
        when (maximized self) (call_toolkit (window_maximize tk)) ;;
        when (fullscreen self) (call_toolkit (window_toggle_fullscreen tk)) ;;
        start_thread (handle_commands evs) ;;
        call_toolkit
          (webview_start tk (gui self) (debug self)
             (if opt_str_truthy (icon_path self) then icon_path self
              else None)))
       (fun e => conn_send (mkResponse 0 PNone (Some (exn_msg e)))))
    (modify (set_worker_argv original_argv) ;;
     conn_close).

(** The response the poller sends for [request] when [process] ends in
    [o]; none when [process] does not come back. *)
Definition reply_of (request : Request) (o : outcome Response)
    : option Response :=
  match o with
  | Return response => Some response
  | Raise e => Some (mkResponse (req_id request) PNone (Some (exn_msg e)))
  | Blocked => None
  end.

(** *** The worker as the controller's peer *)

(** The worker process coming up with the [sys.argv] it inherits: what it
    writes before any request reaches it. *)
Definition worker_boot (self : Config) (argv : list string) (wk : Worker)
    : list Response * Worker :=
  let '(_, wk') := _run_webview self [] (set_worker_argv argv wk) in
  (drop (length (conn_out wk)) (conn_out wk'), wk').

(** The poller, waiting in its loop, is handed one request.  What
    destroying the window does to the event loop, and with it to the life
    of the worker, is the toolkit's business and is not followed here. *)
Definition worker_recv (request : Request) (wk : Worker)
    : list Response * Worker :=
  if polling wk then
    let '(r, wk') := handle_commands [Incoming (Some request)] wk in
    (drop (length (conn_out wk)) (conn_out wk'),
     match r with
     | Return _ => wk'
     | _ => set_polling false wk'
     end)
  else ([], wk).

End Worker.

Arguments Worker : clear implicits.

(** ** Controller and worker together *)

Section System.

Context {G : Type}.

(** The instance has been started, nothing stale is readable, and at the
    other end the poller sits in its loop on a usable pipe. *)
Definition ready (st : Ctl (Worker G)) : Prop :=
  _is_alive st = true /\ conn_inbox st = [] /\
  polling (peer st) = true /\ conn_ok (peer st) = true.

(** The destination [SaveFileRequest.process] takes from a dialog result. *)
Definition chosen (destinations : dialog_result) : string :=
  match destinations with
  | DStr s => s
  | DSeq l => hd "" l
  | DNone => ""
  end.

(** The worker's end of the pipe, its poller and its [sys.argv]: what a
    [process] method has no business with. *)
Definition pipe_of (wk : Worker G)
    : list Response * bool * bool * list string :=
  (conn_out wk, conn_ok wk, polling wk, worker_argv wk).

Definition keeps_pipe {A} (m : M (Worker G) A) : Prop :=
  forall wk, pipe_of (snd (m wk)) = pipe_of wk.

(** A [process] method that, when it returns, returns a response
    numbered [n]. *)
Definition answers_with {A} (n : Z) (f : A -> Response)
    (m : M (Worker G) A) : Prop :=
  forall wk a, fst (m wk) = Return a -> request_id (f a) = n.

End System.

(** ** Vocabulary for the statements *)

Section Vocabulary.

Context {P : Type}.

(** How one public call may move the identifier counter, its history and
    the log of commands on the wire: not at all, or by drawing one
    identifier and sending at most one command that carries it. *)
Definition id_step (st st' : Ctl P) : Prop :=
  (_request_id st' = _request_id st /\ issued st' = issued st /\
   conn_sent st' = conn_sent st)
  \/ (_request_id st' = _request_id st + 1 /\
      issued st' = issued st ++ [_request_id st + 1] /\
      (conn_sent st' = conn_sent st
       \/ exists req, conn_sent st' = conn_sent st ++ [req] /\
                      req_id req = _request_id st + 1)).

(** The counter is the number of identifiers drawn so far, they are
    1, 2, 3, ... in this order, and the commands on the wire carry some of
    them, in this order. *)
Definition ids_ok (st : Ctl P) : Prop :=
  0 <= _request_id st /\
  issued st = seqZ 1 (_request_id st) /\
  map req_id (conn_sent st) `sublist_of` issued st.

End Vocabulary.

(** ** Stand-ins for examples *)

(** A peer that answers the k-th request with the k-th entry of a script,
    the way a mocked connection replays prepared responses. *)
Definition scripted_boot (_ : Config) (_ : list string)
    (script : list (list Response)) : list Response * list (list Response) :=
  ([], script).

Definition scripted_recv (_ : Request) (script : list (list Response))
    : list Response * list (list Response) :=
  match script with
  | [] => ([], [])
  | replies :: script' => (replies, script')
  end.

(** A toolkit without state whose window operations succeed, whose event
    loop keeps running, and whose window creation, dialogs and script
    evaluation end as prescribed. *)
Definition fixed_toolkit (created : outcome unit) (dialog : outcome dialog_result)
    (js : outcome pyval) : Toolkit unit :=
  {| create_window := fun _ _ _ _ g => (created, g);
     window_destroy := ret tt;
     window_resize := fun _ _ => ret tt;
     window_set_title := fun _ => ret tt;
     window_toggle_fullscreen := ret tt;
     window_maximize := ret tt;
     window_restore := ret tt;
     window_create_file_dialog := fun _ _ _ _ _ g => (dialog, g);
     window_evaluate_js := fun _ g => (js, g);
     webview_start := fun _ _ _ => block |}.

Definition demo_config : Config :=
  {| url := "http://test"; title := "Test"; width := None; height := None;
     icon_path := None; maximized := false; fullscreen := false;
     gui := None; debug := false |}.

(** A worker whose poller is running, over a filesystem that holds [fs]. *)
Definition demo_worker (fs : gmap string (list Byte.byte)) : Worker unit :=
  {| toolkit_state := tt; files := fs; denied := ∅;
     worker_argv := ["app.py"]; conn_out := []; conn_ok := true;
     polling := true |}.

(** A worker process about to run [_run_webview]. *)
Definition demo_fresh_worker : Worker unit :=
  {| toolkit_state := tt; files := ∅; denied := ∅;
     worker_argv := []; conn_out := []; conn_ok := true;
     polling := false |}.

(** The save dialog picks [out.txt], which holds [old]; the contents to
    save are an empty tuple. *)
Definition demo_save_toolkit : Toolkit unit :=
  fixed_toolkit (Return tt) (Return (DStr "out.txt")) (Return PNone).

(** Responses for a mocked pipe: one left over from earlier, the one that
    answers request 2, and one nobody asked for. *)
Definition stale_response : Response := mkResponse 7 (PStr "stale") None.
Definition extra_response : Response := mkResponse 9 PNone None.

(** A started instance in front of the peer [p]. *)
Definition demo_started {P : Type} (p : P) : Ctl P :=
  {| config := demo_config;
     process := Some (mkProcess true ["app.py"]);
     _is_alive := true; _request_id := 1;
     sys_argv := ["app.py"; "--verbose"];
     conn_sent := [PingRequest 1]; conn_inbox := []; peer := p;
     spawn_failure := None; worker_exits := true; issued := [1] |}.

(** ** Further vocabulary *)

(** The requests among the events that reach the poller, in order. *)
Fixpoint requests_in (evs : list conn_event) : list Request :=
  match evs with
  | [] => []
  | Incoming (Some request) :: evs' => request :: requests_in evs'
  | _ :: evs' => requests_in evs'
  end.

(** A response that has a result or an error, not both. *)
Definition result_xor_error (r : Response) : Prop :=
  error r = None \/ result r = PNone.

(** A response the startup handshake for ping [n] reads and passes over: it
    is not numbered 0, and it is not a success for [n]. *)
Definition passed_over (n : Z) (x : Response) : Prop :=
  request_id x <> 0 /\
  (request_id x = n ->
   opt_str_truthy (error x) = true \/ result x <> PBool true).

Section MoreVocabulary.

Context {G : Type}.

(** A toolkit none of whose calls hangs. *)
Definition responsive (tk : Toolkit G) : Prop :=
  (forall t u w h g, fst (create_window tk t u w h g) <> Blocked)
  /\ (forall g, fst (window_destroy tk g) <> Blocked)
  /\ (forall w h g, fst (window_resize tk w h g) <> Blocked)
  /\ (forall t g, fst (window_set_title tk t g) <> Blocked)
  /\ (forall g, fst (window_toggle_fullscreen tk g) <> Blocked)
  /\ (forall g, fst (window_maximize tk g) <> Blocked)
  /\ (forall g, fst (window_restore tk g) <> Blocked)
  /\ (forall dt d m n ft g,
        fst (window_create_file_dialog tk dt d m n ft g) <> Blocked)
  /\ (forall js g, fst (window_evaluate_js tk js g) <> Blocked).

(** A piece of worker code that leaves one aspect [proj] of the worker as
    it found it, however it ends. *)
Definition keeps {A B} (proj : Worker G -> B) (m : M (Worker G) A) : Prop :=
  forall wk, proj (snd (m wk)) = proj wk.

(** A piece of worker code whose return value, when it returns, has [Q]. *)
Definition returns_only {A} (Q : A -> Prop) (m : M (Worker G) A) : Prop :=
  forall wk a, fst (m wk) = Return a -> Q a.

(** A piece of worker code that never hangs. *)
Definition comes_back {A} (m : M (Worker G) A) : Prop :=
  forall wk, fst (m wk) <> Blocked.

End MoreVocabulary.

(** ** A toolkit that keeps a log *)

(** The calls the module makes into pywebview, with their arguments. *)
Inductive toolkit_call : Type :=
  | CallCreateWindow (title url : string) (width height : Z)
  | CallDestroy
  | CallResize (width height : Z)
  | CallSetTitle (title : string)
  | CallToggleFullscreen
  | CallMaximize
  | CallRestore
  | CallFileDialog (dt : dialog_type) (directory : string)
      (allow_multiple : bool) (save_filename : string)
      (file_types : list string)
  | CallEvaluateJs (js_code : string)
  | CallStart (gui : option string) (debug : bool) (icon : option string).

(** A call that is written to the log and ends as prescribed. *)
Definition logged {A} (c : toolkit_call) (r : outcome A)
    : M (list toolkit_call) A :=
  fun log => (r, log ++ [c]).

(** A mock of pywebview: every call is logged; window operations end in
    [op], dialogs in [dialog], script evaluation in [js] and the event loop
    in [loop]. *)
Definition recording_toolkit (op : outcome unit) (dialog : outcome dialog_result)
    (js : outcome pyval) (loop : outcome unit) : Toolkit (list toolkit_call) :=
  {| create_window := fun t u w h => logged (CallCreateWindow t u w h) op;
     window_destroy := logged CallDestroy op;
     window_resize := fun w h => logged (CallResize w h) op;
     window_set_title := fun t => logged (CallSetTitle t) op;
     window_toggle_fullscreen := logged CallToggleFullscreen op;
     window_maximize := logged CallMaximize op;
     window_restore := logged CallRestore op;
     window_create_file_dialog :=
       fun dt d m n ft => logged (CallFileDialog dt d m n ft) dialog;
     window_evaluate_js := fun js_code => logged (CallEvaluateJs js_code) js;
     webview_start := fun g d i => logged (CallStart g d i) loop |}.


(** A worker in front of the logging toolkit, its poller running. *)
Definition logging_worker (log : list toolkit_call) : Worker (list toolkit_call) :=
  {| toolkit_state := log; files := ∅; denied := ∅;
     worker_argv := ["app.py"]; conn_out := []; conn_ok := true;
     polling := true |}.

(** A worker whose poller is running and whose filesystem refuses to open
    [locked.txt]. *)
Definition demo_locked_worker : Worker unit :=
  {| toolkit_state := tt; files := {["locked.txt" := bytes_of "old"]};
     denied := {["locked.txt"]};
     worker_argv := ["app.py"]; conn_out := []; conn_ok := true;
     polling := true |}.

(** A toolkit whose calls all return. *)
Definition demo_toolkit : Toolkit unit :=
  fixed_toolkit (Return tt) (Return (DStr "out.txt")) (Return (PInt 4)).

(** A fresh instance in front of a mocked pipe that answers the ping after
    a left-over response and an answer that carries an error. *)
Definition demo_unstarted : Ctl (list (list Response)) :=
  new_instance demo_config ["app.py"; "-v"]
    [[stale_response; mkResponse 1 PNone (Some "not yet");
      mkResponse 1 (PBool true) None; extra_response]]
    None true.

(** ** Arguments that do not pickle *)

(** What a caller may hand to [save_file]: an object that pickles (see
    [contents]), or one that does not (a generator, a [memoryview], an open
    file), of which only the exception that pickling it raises matters. *)
Inductive pyobject : Type :=
  | Pickles (c : contents)
  | NoPickle (e : exn).

Section FacadeObjects.

Context {P : Type}.
Variable peer_recv : Request -> P -> list Response * P.

(** [parent_conn.send(request_obj)] for a request that holds an object that
    does not pickle: pickling raises, in the controller, before anything is
    written to the pipe. *)
Definition parent_conn_send_unpicklable (e : exn) : M (Ctl P) unit := raise e.

(** [_send_command] for such a request, numbered [n]. *)
Definition _send_command_unpicklable (e : exn) (n : Z) : M (Ctl P) pyval :=
  alive <- gets _is_alive ;;
  if negb alive then
    raise (Exn RuntimeError "Webview process is not running.")
  else
    parent_conn_send_unpicklable e ;;
    fun st =>
      let '(r, rest) := _send_command_loop n (conn_inbox st) in
      (r, set_inbox rest st).

(** [save_file] for any object. *)
Definition save_file_object (o : pyobject) (file_name : string)
    (directory : option string) : M (Ctl P) pyval :=
  match o with
  | Pickles c => save_file peer_recv c file_name directory
  | NoPickle e =>
      rid <- _new_request_id ;;
      result <- _send_command_unpicklable e rid ;;
      ret result
  end.

End FacadeObjects.

(** ** Construction *)

(** [__post_init__], as far as the configuration goes: an [icon_path] that
    is given and not empty becomes a [pathlib.Path]; [path_str] is the text
    [str()] gives for the path made from a text, which depends on the
    platform. *)
Definition __post_init__ (path_str : string -> string) (self : Config)
    : Config :=
  {| url := url self; title := title self; width := width self;
     height := height self;
     icon_path :=
       if opt_str_truthy (icon_path self)
       then option_map path_str (icon_path self)
       else icon_path self;
     maximized := maximized self; fullscreen := fullscreen self;
     gui := gui self; debug := debug self |}.

(** A stand-in for [str(pathlib.Path(s))] that knows one path to tidy. *)
Definition demo_path_str (s : string) : string :=
  if String.eqb s "./icons//app.png" then "icons/app.png" else s.

(** * Properties *)

(** ** The monad *)

Ltac run_monad :=
  unfold bind, ret, gets, modify, raise, block, when, try_except, try_finally;
  cbn.

(** ** The controller *)

Section FacadeFacts.

Context {P : Type}.
Variable peer_boot : Config -> list string -> P -> list Response * P.
Variable peer_recv : Request -> P -> list Response * P.

(** The messages [_send_command] is going to read: what was readable
    already, then the peer's reaction to the request. *)
Lemma conn_inbox_deliver (req : Request) (st : Ctl P) :
  conn_inbox (deliver peer_recv req st)
  = conn_inbox st ++ fst (peer_recv req (peer st)).
Proof. unfold deliver. destruct (peer_recv req (peer st)); reflexivity. Qed.

Lemma conn_sent_deliver (req : Request) (st : Ctl P) :
  conn_sent (deliver peer_recv req st) = conn_sent st ++ [req].
Proof. unfold deliver. destruct (peer_recv req (peer st)); reflexivity. Qed.

Lemma _is_alive_deliver (req : Request) (st : Ctl P) :
  _is_alive (deliver peer_recv req st) = _is_alive st.
Proof. unfold deliver. destruct (peer_recv req (peer st)); reflexivity. Qed.

Lemma _request_id_deliver (req : Request) (st : Ctl P) :
  _request_id (deliver peer_recv req st) = _request_id st.
Proof. unfold deliver. destruct (peer_recv req (peer st)); reflexivity. Qed.

Lemma issued_deliver (req : Request) (st : Ctl P) :
  issued (deliver peer_recv req st) = issued st.
Proof. unfold deliver. destruct (peer_recv req (peer st)); reflexivity. Qed.

Lemma sys_argv_deliver (req : Request) (st : Ctl P) :
  sys_argv (deliver peer_recv req st) = sys_argv st.
Proof. unfold deliver. destruct (peer_recv req (peer st)); reflexivity. Qed.

(** The guard of [_send_command]. *)
Lemma _send_command_not_alive (req : Request) (st : Ctl P) :
  _is_alive st = false ->
  _send_command peer_recv req st
  = (Raise (Exn RuntimeError "Webview process is not running."), st).
Proof. intros H. unfold _send_command. run_monad. rewrite H. reflexivity. Qed.

Lemma _send_command_alive (req : Request) (st : Ctl P) :
  _is_alive st = true ->
  _send_command peer_recv req st
  = (fst (_send_command_loop (req_id req) (conn_inbox (deliver peer_recv req st))),
     set_inbox
       (snd (_send_command_loop (req_id req) (conn_inbox (deliver peer_recv req st))))
       (deliver peer_recv req st)).
Proof.
  intros H. unfold _send_command. run_monad. rewrite H. cbn.
  destruct (_send_command_loop _ _); reflexivity.
Qed.

(** Responses numbered otherwise are read and dropped. *)
Lemma _send_command_loop_skip (n : Z) (pre rest : list Response) :
  Forall (fun x => request_id x <> n) pre ->
  _send_command_loop n (pre ++ rest) = _send_command_loop n rest.
Proof.
  induction 1 as [|x pre Hx _ IH]; [reflexivity|].
  cbn. destruct (Z.eqb_spec (request_id x) n); [contradiction|exact IH].
Qed.

Lemma _send_command_loop_match (n : Z) (r : Response) (post : list Response) :
  request_id r = n ->
  _send_command_loop n (r :: post) = (complete r, post).
Proof. intros <-. cbn. rewrite Z.eqb_refl. reflexivity. Qed.

Lemma _send_command_loop_starved (n : Z) (pre : list Response) :
  Forall (fun x => request_id x <> n) pre ->
  _send_command_loop n pre = (Blocked, []).
Proof.
  intros H. rewrite <- (app_nil_r pre).
  rewrite _send_command_loop_skip by exact H. reflexivity.
Qed.

(** Every method draws an identifier, sends the command built with it and
    post-processes what [_send_command] gives. *)
Lemma invoke_unfold (m : method) (st : Ctl P) :
  invoke peer_recv m st
  = (let st1 := bump_request_id st in
     let r := _send_command peer_recv (request_of m (_request_id st1)) st1 in
     (conclude m (fst r), settle m (fst r) (snd r))).
Proof.
  destruct m; unfold invoke, close, resize, set_title, toggle_fullscreen,
    set_maximized, pick_file, save_file, evaluate_javascript,
    _new_request_id, request_of, bind, ret, gets, modify;
    cbv beta iota zeta;
    match goal with
    | |- context [_send_command ?pr ?rq ?s] =>
        destruct (_send_command pr rq s) as [[v|e|] s']
    end; reflexivity.
Qed.

(** A method on a live instance whose pipe yields non-matching responses
    and then a matching one. *)
Lemma invoke_matching (m : method) (st : Ctl P)
    (pre post : list Response) (r : Response) :
  _is_alive st = true ->
  conn_inbox st ++ fst (peer_recv (request_of m (_request_id st + 1)) (peer st))
    = pre ++ r :: post ->
  Forall (fun x => request_id x <> _request_id st + 1) pre ->
  request_id r = _request_id st + 1 ->
  invoke peer_recv m st
  = (conclude m (complete r),
     settle m (complete r)
       (set_inbox post
          (deliver peer_recv (request_of m (_request_id st + 1))
             (bump_request_id st)))).
Proof.
  intros Halive Hstream Hpre Hr.
  rewrite invoke_unfold. cbv zeta.
  change (_request_id (bump_request_id st)) with (_request_id st + 1).
  rewrite _send_command_alive by exact Halive.
  rewrite conn_inbox_deliver.
  change (conn_inbox (bump_request_id st)) with (conn_inbox st).
  change (peer (bump_request_id st)) with (peer st).
  rewrite Hstream.
  assert (Hid : req_id (request_of m (_request_id st + 1)) = _request_id st + 1)
    by (destruct m; reflexivity).
  rewrite Hid, _send_command_loop_skip by exact Hpre.
  rewrite _send_command_loop_match by exact Hr.
  reflexivity.
Qed.

Lemma req_id_request_of (m : method) (n : Z) : req_id (request_of m n) = n.
Proof. destruct m; reflexivity. Qed.


(** C6. A method called on an instance that is not alive raises at once:
    it has drawn an identifier, and nothing is sent, nothing is read and
    the peer is not reached. *)
Theorem not_alive_raises_without_channel (m : method) (st : Ctl P) :
  _is_alive st = false ->
  invoke peer_recv m st
  = (Raise (Exn RuntimeError "Webview process is not running."),
     bump_request_id st)
  /\ conn_sent (snd (invoke peer_recv m st)) = conn_sent st
  /\ conn_inbox (snd (invoke peer_recv m st)) = conn_inbox st
  /\ peer (snd (invoke peer_recv m st)) = peer st.
Proof.
  intros Hdead.
  assert (Hinv : invoke peer_recv m st
                 = (Raise (Exn RuntimeError "Webview process is not running."),
                    bump_request_id st)).
  { rewrite invoke_unfold. cbv zeta.
    rewrite _send_command_not_alive by exact Hdead.
    destruct m; reflexivity. }
  rewrite Hinv. repeat split.
Qed.

(** A [close] that returns has cleared the alive flag. *)
Lemma close_returns_not_alive (st : Ctl P) (v : pyval) :
  fst (close peer_recv st) = Return v ->
  _is_alive (snd (close peer_recv st)) = false.
Proof.
  change (close peer_recv) with (invoke peer_recv m_close).
  rewrite invoke_unfold. cbv zeta. cbn [fst snd].
  destruct (fst (_send_command peer_recv _ _)); cbn; [reflexivity|discriminate..].
Qed.

(** C7. [pick_file] on a worker result that is a list: with
    [multiple=False] the first element, or [None] for the empty list; with
    [multiple=True] the list as it is. *)
Theorem pick_file_unwraps_result (file_types : option (list string))
    (multiple : bool) (st : Ctl P) (pre post : list Response) (r : Response)
    (l : list pyval) :
  _is_alive st = true ->
  conn_inbox st
    ++ fst (peer_recv
              (request_of (m_pick_file file_types multiple) (_request_id st + 1))
              (peer st))
    = pre ++ r :: post ->
  Forall (fun x => request_id x <> _request_id st + 1) pre ->
  request_id r = _request_id st + 1 ->
  opt_str_truthy (error r) = false ->
  result r = PList l ->
  fst (pick_file peer_recv file_types multiple st)
  = Return (if multiple then PList l
            else match l with
                 | [] => PNone
                 | x :: _ => x
                 end).
Proof.
  intros Halive Hstream Hpre Hr Herr Hres.
  change (pick_file peer_recv file_types multiple)
    with (invoke peer_recv (m_pick_file file_types multiple)).
  rewrite (invoke_matching _ st pre post r Halive Hstream Hpre Hr).
  cbn [fst]. unfold complete, opt_str_truthy in *.
  destruct (error r) as [msg|]; [rewrite Herr|]; cbn; rewrite Hres;
    destruct multiple, l; reflexivity.
Qed.

(** What [_send_command] can end in. *)
Lemma _send_command_loop_outcome (n : Z) (inbox : list Response) :
  match fst (_send_command_loop n inbox) with
  | Raise e => exn_cls e = WebViewException
  | _ => True
  end.
Proof.
  induction inbox as [|x inbox IH]; cbn; [exact I|].
  destruct (request_id x =? n); [|exact IH].
  cbn. unfold complete. destruct (error x) as [msg|]; [|exact I].
  destruct (str_truthy msg); [reflexivity|exact I].
Qed.

(** A response to [Close] whose error is not the empty string: [close]
    raises it and the alive flag stays set, so that the next method is let
    through by the guard and puts its command on the wire. *)
Lemma close_error_raised (st : Ctl P) (pre post : list Response)
    (r : Response) (msg : string) :
  _is_alive st = true ->
  conn_inbox st ++ fst (peer_recv (CloseRequest (_request_id st + 1)) (peer st))
    = pre ++ r :: post ->
  Forall (fun x => request_id x <> _request_id st + 1) pre ->
  request_id r = _request_id st + 1 ->
  error r = Some msg ->
  str_truthy msg = true ->
  fst (close peer_recv st) = Raise (Exn WebViewException msg)
  /\ _is_alive (snd (close peer_recv st)) = true
  /\ forall m' : method,
       let st' := snd (close peer_recv st) in
       fst (invoke peer_recv m' st')
         <> Raise (Exn RuntimeError "Webview process is not running.")
       /\ conn_sent (snd (invoke peer_recv m' st'))
          = conn_sent st' ++ [request_of m' (_request_id st' + 1)].
Proof.
  intros Halive Hstream Hpre Hr Herr Hmsg.
  change (close peer_recv) with (invoke peer_recv m_close).
  rewrite (invoke_matching m_close st pre post r Halive Hstream Hpre Hr).
  assert (Hc : complete r = Raise (Exn WebViewException msg))
    by (unfold complete; rewrite Herr, Hmsg; reflexivity).
  rewrite Hc. cbn [fst snd settle].
  split; [reflexivity|].
  assert (Hal : _is_alive
                  (set_inbox post
                     (deliver peer_recv (request_of m_close (_request_id st + 1))
                        (bump_request_id st))) = true)
    by (cbn; rewrite _is_alive_deliver; exact Halive).
  split; [exact Hal|].
  intros m'. cbv zeta.
  rewrite invoke_unfold. cbv zeta.
  rewrite _send_command_alive by exact Hal.
  cbn [fst snd]. split.
  - match goal with
    | |- conclude _ (fst (_send_command_loop ?n ?inbox)) <> _ =>
        pose proof (_send_command_loop_outcome n inbox) as Ho;
        destruct (fst (_send_command_loop n inbox)) as [v|e|]
    end.
    + destruct m'; cbn; try discriminate.
      unfold pick_file_result.
      destruct multiple; [discriminate|].
      destruct (py_truthy v); [|discriminate].
      destruct v as [| | |[|]|[|]|[|]]; discriminate.
    + cbn. intros [= He]. rewrite He in Ho. discriminate.
    + discriminate.
  - assert (Hs : forall (o : outcome pyval) (st0 : Ctl P),
               conn_sent (settle m' o st0) = conn_sent st0)
      by (intros o st0; destruct m', o; reflexivity).
    rewrite Hs. do 3 (cbn; rewrite ?conn_sent_deliver). reflexivity.
Qed.

(** A response to [Close] whose error is the empty string: [close] returns
    and clears the alive flag. *)
Lemma close_empty_error_returns (st : Ctl P) (pre post : list Response)
    (r : Response) :
  _is_alive st = true ->
  conn_inbox st ++ fst (peer_recv (CloseRequest (_request_id st + 1)) (peer st))
    = pre ++ r :: post ->
  Forall (fun x => request_id x <> _request_id st + 1) pre ->
  request_id r = _request_id st + 1 ->
  error r = Some "" ->
  fst (close peer_recv st) = Return PNone
  /\ _is_alive (snd (close peer_recv st)) = false
  /\ forall m' : method,
       fst (invoke peer_recv m' (snd (close peer_recv st)))
       = Raise (Exn RuntimeError "Webview process is not running.").
Proof.
  intros Halive Hstream Hpre Hr Herr.
  change (close peer_recv) with (invoke peer_recv m_close).
  rewrite (invoke_matching m_close st pre post r Halive Hstream Hpre Hr).
  assert (Hc : complete r = Return (result r))
    by (unfold complete; rewrite Herr; reflexivity).
  rewrite Hc. cbn [fst snd settle conclude].
  split; [reflexivity|]. split; [reflexivity|].
  intros m'. rewrite invoke_unfold. cbv zeta.
  rewrite _send_command_not_alive by reflexivity.
  destruct m'; reflexivity.
Qed.

(** C9. The response to [Close] carries an error.  If the error is not the
    empty string, [close] raises it before the alive flag is cleared: the
    instance stays alive and the next method is let through by the guard
    and puts its command on the wire.  If the error is the empty string,
    as it is when the window's [destroy] raised an exception without text,
    [close] does not raise: it returns, the alive flag is cleared, and
    every later method is turned away at the guard. *)
Theorem close_on_error_response (st : Ctl P) (pre post : list Response)
    (r : Response) (msg : string) :
  _is_alive st = true ->
  conn_inbox st ++ fst (peer_recv (CloseRequest (_request_id st + 1)) (peer st))
    = pre ++ r :: post ->
  Forall (fun x => request_id x <> _request_id st + 1) pre ->
  request_id r = _request_id st + 1 ->
  error r = Some msg ->
  if String.eqb msg "" then
    fst (close peer_recv st) = Return PNone
    /\ _is_alive (snd (close peer_recv st)) = false
    /\ forall m' : method,
         fst (invoke peer_recv m' (snd (close peer_recv st)))
         = Raise (Exn RuntimeError "Webview process is not running.")
  else
    fst (close peer_recv st) = Raise (Exn WebViewException msg)
    /\ _is_alive (snd (close peer_recv st)) = true
    /\ forall m' : method,
         fst (invoke peer_recv m' (snd (close peer_recv st)))
           <> Raise (Exn RuntimeError "Webview process is not running.")
         /\ conn_sent (snd (invoke peer_recv m' (snd (close peer_recv st))))
            = conn_sent (snd (close peer_recv st))
              ++ [request_of m'
                    (_request_id (snd (close peer_recv st)) + 1)].
Proof.
  intros Halive Hstream Hpre Hr Herr.
  destruct (String.eqb_spec msg "") as [->|Hne].
  - exact (close_empty_error_returns st pre post r Halive Hstream Hpre Hr Herr).
  - assert (Hmsg : str_truthy msg = true).
    { unfold str_truthy. destruct (String.eqb_spec msg ""); [contradiction|].
      reflexivity. }
    exact (close_error_raised st pre post r msg Halive Hstream Hpre Hr Herr
             Hmsg).
Qed.

(** *** The startup handshake *)

Lemma _wait_for_window_loop_skip (n : Z) (pre rest : list Response) :
  Forall (fun x => request_id x <> 0 /\ request_id x <> n) pre ->
  _wait_for_window_loop n (pre ++ rest) = _wait_for_window_loop n rest.
Proof.
  induction 1 as [|x pre [Hz Hn] _ IH]; [reflexivity|].
  cbn. destruct (Z.eqb_spec (request_id x) 0); [contradiction|].
  destruct (Z.eqb_spec (request_id x) n); [contradiction|exact IH].
Qed.

Lemma _wait_for_window_loop_sentinel (n : Z) (r : Response)
    (post : list Response) :
  request_id r = 0 ->
  _wait_for_window_loop n (r :: post)
  = (Raise (Exn RuntimeError
              ("Webview initialization failed: " +:+ py_str_opt (error r))),
     post).
Proof. intros H. cbn. rewrite H. reflexivity. Qed.

Lemma _wait_for_window_loop_success (n : Z) (r : Response)
    (post : list Response) :
  n <> 0 ->
  request_id r = n ->
  opt_str_truthy (error r) = false ->
  result r = PBool true ->
  _wait_for_window_loop n (r :: post) = (Return tt, post).
Proof.
  intros Hn Hr He Hres. cbn. rewrite Hr.
  destruct (Z.eqb_spec n 0); [contradiction|].
  rewrite Z.eqb_refl, He, Hres. reflexivity.
Qed.

(** [start], step by step. *)
Lemma start_unfold (st : Ctl P) :
  start peer_boot peer_recv st
  = if already_running st then
      (Raise (Exn RuntimeError "Webview process is already running."), st)
    else
      let st1 :=
        set_process (Some (mkProcess false (take 1 (sys_argv st))))
          (set_argv (take 1 (sys_argv st)) st) in
      match spawn_failure st with
      | Some e => (Raise e, set_argv (sys_argv st) st1)
      | None =>
          let st2 :=
            deliver peer_recv (PingRequest (_request_id st + 1))
              (bump_request_id (set_is_alive true (boot peer_boot st1))) in
          let w := _wait_for_window_loop (_request_id st + 1) (conn_inbox st2) in
          match fst w with
          | Blocked => (Blocked, set_inbox (snd w) st2)
          | o => (o, set_argv (sys_argv st) (set_inbox (snd w) st2))
          end
      end.
Proof.
  unfold start, spawn, _wait_for_window, _new_request_id, parent_conn_send.
  run_monad.
  destruct (already_running st); [reflexivity|].
  destruct (spawn_failure st) as [e|]; [reflexivity|].
  unfold boot, deliver. cbn.
  destruct (peer_boot (config st) (take 1 (sys_argv st)) (peer st))
    as [msgs p1]. cbn.
  destruct (peer_recv (PingRequest (_request_id st + 1)) p1)
    as [replies p2]. cbn.
  destruct (_wait_for_window_loop (_request_id st + 1)
              ((conn_inbox st ++ msgs) ++ replies)) as [[[]|e|] rest];
    reflexivity.
Qed.

(** C8. [start] leaves [sys.argv] as it found it whenever it returns or
    raises (while it waits in the handshake, [sys.argv] is cut down to the
    program name), and a worker it spawns is started under that cut-down
    [sys.argv], whatever arguments the controller was run with. *)
Theorem start_resets_and_restores_argv (st : Ctl P) :
  match fst (start peer_boot peer_recv st) with
  | Blocked =>
      sys_argv (snd (start peer_boot peer_recv st)) = take 1 (sys_argv st)
  | _ => sys_argv (snd (start peer_boot peer_recv st)) = sys_argv st
  end
  /\ if already_running st then
       process (snd (start peer_boot peer_recv st)) = process st
     else
       exists pr,
         process (snd (start peer_boot peer_recv st)) = Some pr
         /\ inherited_argv pr = take 1 (sys_argv st)
         /\ forall prog args,
              sys_argv st = prog :: args -> inherited_argv pr = [prog].
Proof.
  rewrite start_unfold.
  destruct (already_running st); [split; reflexivity|].
  cbv zeta.
  destruct (spawn_failure st) as [e|].
  { split; [reflexivity|]. eexists. split; [reflexivity|].
    split; [reflexivity|]. intros prog args ->. reflexivity. }
  match goal with
  | |- context [_wait_for_window_loop ?n ?l] =>
      destruct (_wait_for_window_loop n l) as [[[]|e|] rest]
  end; cbn [fst snd]; unfold boot, deliver; cbn;
    destruct (peer_boot (config st) (take 1 (sys_argv st)) (peer st))
      as [msgs p1]; cbn;
    destruct (peer_recv (PingRequest (_request_id st + 1)) p1)
      as [replies p2]; cbn;
    (split; [reflexivity|]); eexists; (split; [reflexivity|]);
    (split; [reflexivity|]); intros prog args ->; reflexivity.
Qed.

(** *** Request identifiers *)

Lemma id_step_same (st st' : Ctl P) :
  _request_id st' = _request_id st ->
  issued st' = issued st ->
  conn_sent st' = conn_sent st ->
  id_step st st'.
Proof. intros. left. auto. Qed.

Lemma id_step_then_same (st st' st'' : Ctl P) :
  id_step st st' ->
  _request_id st'' = _request_id st' ->
  issued st'' = issued st' ->
  conn_sent st'' = conn_sent st' ->
  id_step st st''.
Proof.
  unfold id_step. intros H -> -> ->. exact H.
Qed.

Lemma invoke_id_step (m : method) (st : Ctl P) :
  id_step st (snd (invoke peer_recv m st)).
Proof.
  rewrite invoke_unfold. cbv zeta. cbn [fst snd].
  change (_request_id (bump_request_id st)) with (_request_id st + 1).
  set (req := request_of m (_request_id st + 1)).
  assert (Hs : forall (o : outcome pyval) (st0 : Ctl P),
             _request_id (settle m o st0) = _request_id st0
             /\ issued (settle m o st0) = issued st0
             /\ conn_sent (settle m o st0) = conn_sent st0)
    by (intros o st0; destruct m, o; repeat split).
  destruct (_is_alive (bump_request_id st)) eqn:Halive.
  - rewrite _send_command_alive by exact Halive. cbn [fst snd].
    eapply id_step_then_same; [|apply Hs..].
    right. cbn.
    rewrite _request_id_deliver, issued_deliver, conn_sent_deliver.
    repeat split. right. exists req. split; [reflexivity|].
    apply req_id_request_of.
  - rewrite _send_command_not_alive by exact Halive. cbn [fst snd].
    eapply id_step_then_same; [|apply Hs..].
    right. cbn. repeat split. left. reflexivity.
Qed.

Lemma start_id_step (st : Ctl P) :
  id_step st (snd (start peer_boot peer_recv st)).
Proof.
  rewrite start_unfold.
  destruct (already_running st); [apply id_step_same; reflexivity|].
  cbv zeta.
  destruct (spawn_failure st) as [e|]; [apply id_step_same; reflexivity|].
  assert (H : forall rest,
             id_step st
               (set_inbox rest
                  (deliver peer_recv (PingRequest (_request_id st + 1))
                     (bump_request_id
                        (set_is_alive true
                           (boot peer_boot
                              (set_process
                                 (Some (mkProcess false (take 1 (sys_argv st))))
                                 (set_argv (take 1 (sys_argv st)) st)))))))).
  { intros rest. right. cbn.
    rewrite _request_id_deliver, issued_deliver, conn_sent_deliver.
    unfold boot. cbn.
    destruct (peer_boot (config st) (take 1 (sys_argv st)) (peer st)).
    cbn. repeat split. right. eexists. split; reflexivity. }
  match goal with
  | |- context [_wait_for_window_loop ?n ?l] =>
      destruct (_wait_for_window_loop n l) as [[[]|e|] rest]
  end; cbn [fst snd];
    first [ exact (H rest)
          | eapply id_step_then_same; [exact (H rest)|reflexivity..] ].
Qed.

Lemma join_id_step (st : Ctl P) : id_step st (snd (join st)).
Proof.
  unfold join, process_join, bind, gets, modify, ret, block.
  destruct (process st) as [[[] argv]|] eqn:Hp;
    destruct (_is_alive st); destruct (worker_exits st);
    cbn; rewrite ?Hp; cbn; apply id_step_same; reflexivity.
Qed.

Lemma __del___id_step (st : Ctl P) : id_step st (snd (__del__ peer_recv st)).
Proof.
  unfold __del__, process_terminate, process_join.
  pose proof (invoke_id_step m_close st) as Hclose.
  change (invoke peer_recv m_close) with (close peer_recv) in Hclose.
  unfold bind at 1 2. unfold gets at 1 2. cbn [fst snd].
  destruct (match process st with Some _ => _is_alive st | None => false end);
    [|apply id_step_same; reflexivity].
  unfold bind at 1.
  destruct (close peer_recv st) as [[v|e|] st1]; cbn [snd] in Hclose |- *;
    try exact Hclose.
  run_monad.
  destruct (process st1) as [[[] argv]|]; cbn;
    (eapply id_step_then_same; [exact Hclose|reflexivity..]).
Qed.

Lemma perform_id_step (c : call) (st : Ctl P) :
  id_step st (snd (perform peer_boot peer_recv c st)).
Proof.
  destruct c; cbn [perform].
  - pose proof (start_id_step st) as H. unfold bind, ret.
    destruct (start peer_boot peer_recv st) as [[[]|e|] st1]; exact H.
  - pose proof (join_id_step st) as H. unfold bind, ret.
    destruct (join st) as [[[]|e|] st1]; exact H.
  - pose proof (__del___id_step st) as H. unfold bind, ret.
    destruct (__del__ peer_recv st) as [[[]|e|] st1]; exact H.
  - apply invoke_id_step.
Qed.

Lemma ids_ok_step (st st' : Ctl P) :
  ids_ok st -> id_step st st' -> ids_ok st'.
Proof.
  unfold ids_ok.
  intros (Hpos & Hiss & Hsub) [(E1 & E2 & E3)|(E1 & E2 & Hsent)];
    rewrite E1, E2.
  - rewrite E3. repeat split; assumption.
  - assert (Hseq : seqZ 1 (_request_id st + 1)
                   = seqZ 1 (_request_id st) ++ [_request_id st + 1]).
    { rewrite seqZ_app by lia.
      rewrite (seqZ_cons _ 1) by lia.
      rewrite (seqZ_nil _ (Z.pred 1)) by lia.
      rewrite (Z.add_comm 1). reflexivity. }
    split; [lia|]. split; [rewrite Hiss; symmetry; exact Hseq|].
    destruct Hsent as [->|(req & -> & Hreq)].
    + apply sublist_inserts_r. exact Hsub.
    + rewrite map_app. cbn. rewrite Hreq.
      apply sublist_app; [exact Hsub|reflexivity].
Qed.

Lemma perform_all_ids_ok (cs : list call) (st : Ctl P) :
  ids_ok st -> ids_ok (perform_all peer_boot peer_recv cs st).
Proof.
  revert st. induction cs as [|c cs IH]; intros st Hok; [exact Hok|].
  cbn [perform_all].
  pose proof (ids_ok_step _ _ Hok (perform_id_step c st)) as Hok'.
  destruct (perform peer_boot peer_recv c st) as [[v|e|] st1];
    cbn [snd] in Hok'; auto.
Qed.

(** C3. Over any sequence of calls on one instance, the identifiers drawn
    are 1, 2, 3, ... in this order: each is larger than the ones before
    it, none is zero, none occurs twice, and the commands that went on the
    wire carry some of them, in that order. *)
Theorem request_ids_strictly_increasing (cfg : Config) (argv : list string)
    (p : P) (os : option exn) (ex : bool) (cs : list call) :
  let st := perform_all peer_boot peer_recv cs (new_instance cfg argv p os ex) in
  issued st = seqZ 1 (_request_id st)
  /\ (forall (i j : nat) (a b : Z),
        (i < j)%nat -> issued st !! i = Some a -> issued st !! j = Some b ->
        a < b)
  /\ (forall i : nat, issued st !! i = Some (1 + Z.of_nat i)
                      \/ issued st !! i = None)
  /\ Forall (fun n => n <> 0) (issued st)
  /\ NoDup (issued st)
  /\ map req_id (conn_sent st) `sublist_of` issued st.
Proof.
  intros st.
  assert (Hok : ids_ok st).
  { apply perform_all_ids_ok. repeat split; [reflexivity|].
    cbn. apply sublist_nil_l. }
  destruct Hok as (Hpos & Hiss & Hsub).
  split; [exact Hiss|].
  split.
  { intros i j a b Hij. rewrite Hiss.
    intros (-> & _)%lookup_seqZ (-> & _)%lookup_seqZ. lia. }
  split.
  { intros i. rewrite Hiss.
    destruct (decide (Z.of_nat i < _request_id st)).
    - left. apply lookup_seqZ_lt. assumption.
    - right. apply lookup_seqZ_ge. lia. }
  split; [rewrite Hiss; apply Forall_seqZ; lia|].
  split; [rewrite Hiss; apply NoDup_seqZ|exact Hsub].
Qed.

End FacadeFacts.

(** ** The worker *)

Section WorkerFacts.

Context {G : Type}.
Variable tk : Toolkit G.
Variable linesep : list N.

(** [process] leaves the worker's end of the pipe and the poller alone. *)

Lemma keeps_pipe_ret {A} (a : A) : keeps_pipe (G:=G) (ret a).
Proof. intros wk. reflexivity. Qed.

Lemma keeps_pipe_raise {A} (e : exn) : keeps_pipe (G:=G) (A:=A) (raise e).
Proof. intros wk. reflexivity. Qed.

Lemma keeps_pipe_gets {A} (f : Worker G -> A) : keeps_pipe (gets f).
Proof. intros wk. reflexivity. Qed.

Lemma keeps_pipe_bind {A B} (m : M (Worker G) A) (k : A -> M (Worker G) B) :
  keeps_pipe m -> (forall a, keeps_pipe (k a)) -> keeps_pipe (bind m k).
Proof.
  intros Hm Hk wk. unfold bind. specialize (Hm wk).
  destruct (m wk) as [[a|e|] wk1]; cbn [snd] in *; try exact Hm.
  rewrite Hk. exact Hm.
Qed.

Lemma keeps_pipe_call_toolkit {A} (m : M G A) : keeps_pipe (call_toolkit m).
Proof.
  intros wk. unfold call_toolkit. destruct (m (toolkit_state wk)). reflexivity.
Qed.

Lemma keeps_pipe_set_files (f : Worker G -> gmap string (list Byte.byte)) :
  keeps_pipe (modify (fun wk => set_files (f wk) wk)).
Proof. intros wk. reflexivity. Qed.

Lemma keeps_pipe_open_for_writing (destination : string) :
  keeps_pipe (G:=G) (open_for_writing destination).
Proof.
  intros wk. unfold open_for_writing. run_monad.
  destruct (decide (destination ∈ denied wk)); reflexivity.
Qed.

Lemma keeps_pipe_write_text (destination : string) (cps : list N) :
  keeps_pipe (G:=G) (write_text linesep destination cps).
Proof.
  intros wk. unfold write_text.
  destruct (utf8_encode (translate_newlines linesep cps)); reflexivity.
Qed.

Lemma keeps_pipe_write_binary (destination : string) (c : contents) :
  keeps_pipe (G:=G) (write_binary destination c).
Proof. intros wk. destruct c; reflexivity. Qed.

Create HintDb pipe.
Hint Resolve keeps_pipe_ret keeps_pipe_raise keeps_pipe_gets
  keeps_pipe_call_toolkit keeps_pipe_set_files keeps_pipe_open_for_writing
  keeps_pipe_write_text keeps_pipe_write_binary : pipe.

Ltac keeps_pipe_step :=
  match goal with
  | |- keeps_pipe (bind _ _) => apply keeps_pipe_bind; [|intros ?]
  | |- keeps_pipe (if ?c then _ else _) => destruct c
  | |- keeps_pipe (match ?c with _ => _ end) => destruct c
  | |- keeps_pipe _ => solve [auto with pipe]
  end.

Lemma process_request_keeps_pipe (request : Request) :
  keeps_pipe (process_request tk linesep request).
Proof.
  destruct request; cbn [process_request];
    unfold CloseRequest_process, ResizeRequest_process,
      SetTitleRequest_process, ToggleFullscreenRequest_process,
      SetMaximizedRequest_process, PickFileRequest_process,
      SaveFileRequest_process, EvaluateJavascriptRequest_process,
      PingRequest_process;
    repeat keeps_pipe_step.
Qed.

Lemma process_request_pipe (request : Request) (wk : Worker G) :
  conn_out (snd (process_request tk linesep request wk)) = conn_out wk
  /\ conn_ok (snd (process_request tk linesep request wk)) = conn_ok wk
  /\ polling (snd (process_request tk linesep request wk)) = polling wk.
Proof.
  pose proof (process_request_keeps_pipe request wk) as H.
  unfold pipe_of in H. injection H as H1 H2 H3 _. auto.
Qed.

(** *** The poller *)

(** One request handed to the poller on a usable pipe: whatever [process]
    does, returning or raising, exactly one response goes out and the loop
    goes on with the events that follow. *)
Lemma handle_commands_request (request : Request) (evs : list conn_event)
    (wk : Worker G) (response : Response) :
  conn_ok wk = true ->
  reply_of request (fst (process_request tk linesep request wk))
    = Some response ->
  handle_commands tk linesep (Incoming (Some request) :: evs) wk
  = handle_commands tk linesep evs
      (push_out response (snd (process_request tk linesep request wk))).
Proof.
  intros Hok Hreply.
  destruct (process_request_pipe request wk) as (_ & Hok' & _).
  cbn [handle_commands]. unfold poll_turn, answer, conn_send.
  unfold bind, gets, ret, try_except, modify, raise.
  rewrite Hok.
  destruct (process_request tk linesep request wk) as [[r|e|] wk1];
    cbn [fst snd reply_of] in *; try discriminate;
    injection Hreply as <-; rewrite Hok', Hok; reflexivity.
Qed.

(** The same when the poller sits in its loop and the request comes from
    the controller. *)
Lemma worker_recv_request (request : Request) (wk : Worker G)
    (response : Response) :
  polling wk = true ->
  conn_ok wk = true ->
  reply_of request (fst (process_request tk linesep request wk))
    = Some response ->
  worker_recv tk linesep request wk
  = ([response],
     push_out response (snd (process_request tk linesep request wk))).
Proof.
  intros Hpoll Hok Hreply.
  destruct (process_request_pipe request wk) as (Hout & _ & _).
  unfold worker_recv. rewrite Hpoll.
  rewrite (handle_commands_request request [] wk response Hok Hreply).
  cbn. rewrite Hout, drop_app_length. reflexivity.
Qed.

(** *** Startup *)

(** [create_window] raising: the [except] branch sends the response numbered
    0, the [finally] block restores [sys.argv] and closes the pipe. *)
Lemma _run_webview_create_fails (self : Config) (evs : list conn_event)
    (wk : Worker G) (e : exn) (g : G) :
  conn_ok wk = true ->
  create_window tk (title self) (url self)
    (match width self with
     | Some w => if w =? 0 then 800 else w
     | None => 800
     end)
    (match height self with
     | Some h => if h =? 0 then 600 else h
     | None => 600
     end) (toolkit_state wk) = (Raise e, g) ->
  _run_webview tk linesep self evs wk
  = (Return tt,
     set_conn_ok false
       (push_out (mkResponse 0 PNone (Some (exn_msg e)))
          (set_toolkit_state g wk))).
Proof.
  intros Hok Hcreate.
  unfold _run_webview, call_toolkit, conn_send, conn_close. run_monad.
  rewrite Hcreate. cbn. rewrite Hok. cbn.
  destruct wk; reflexivity.
Qed.

(** *** Responses carry the request's identifier *)

Lemma answers_with_ret (n : Z) (r : Response) :
  request_id r = n -> answers_with (G:=G) n id (ret r).
Proof. intros H wk a [= <-]. exact H. Qed.

Lemma answers_with_bind {A} (n : Z) (m : M (Worker G) A)
    (k : A -> M (Worker G) Response) :
  (forall a, answers_with n id (k a)) -> answers_with n id (bind m k).
Proof.
  intros Hk wk r. unfold bind.
  destruct (m wk) as [[a|e|] wk1]; cbn [fst]; try discriminate.
  apply Hk.
Qed.

Lemma process_request_id (request : Request) (wk : Worker G) (r : Response) :
  fst (process_request tk linesep request wk) = Return r ->
  request_id r = req_id request.
Proof.
  revert wk r. change (answers_with (req_id request) id
                         (process_request tk linesep request)).
  destruct request; cbn [process_request req_id];
    unfold CloseRequest_process, ResizeRequest_process,
      SetTitleRequest_process, ToggleFullscreenRequest_process,
      SetMaximizedRequest_process, PickFileRequest_process,
      SaveFileRequest_process, EvaluateJavascriptRequest_process,
      PingRequest_process;
    repeat first
      [ apply answers_with_ret; reflexivity
      | apply answers_with_bind; intros ?
      | match goal with
        | |- answers_with _ _ (if ?c then _ else _) => destruct c
        end ].
Qed.

Lemma reply_of_id (request : Request) (o : outcome Response) (r : Response) :
  (forall r', o = Return r' -> request_id r' = req_id request) ->
  reply_of request o = Some r ->
  request_id r = req_id request.
Proof.
  intros Hret. destruct o as [r'|e|]; cbn; intros [= <-]; auto.
Qed.

End WorkerFacts.

(** ** Controller and worker together *)

Section SystemFacts.

Context {G : Type}.
Variable tk : Toolkit G.
Variable linesep : list N.

Lemma peer_deliver {P : Type} (peer_recv : Request -> P -> list Response * P)
    (req : Request) (st : Ctl P) :
  peer (deliver peer_recv req st) = snd (peer_recv req (peer st)).
Proof. unfold deliver. destruct (peer_recv req (peer st)); reflexivity. Qed.

(** A method called on a ready system: the worker processes the command,
    answers, and the method ends as that one response says. *)
Lemma ready_invoke (m : method) (st : Ctl (Worker G)) (r : Response) :
  ready st ->
  reply_of (request_of m (_request_id st + 1))
    (fst (process_request tk linesep (request_of m (_request_id st + 1))
            (peer st))) = Some r ->
  fst (invoke (worker_recv tk linesep) m st) = conclude m (complete r)
  /\ peer (snd (invoke (worker_recv tk linesep) m st))
     = push_out r
         (snd (process_request tk linesep
                 (request_of m (_request_id st + 1)) (peer st))).
Proof.
  intros (Halive & Hinbox & Hpoll & Hok) Hreply.
  pose proof (worker_recv_request tk linesep _ _ _ Hpoll Hok Hreply) as Hrecv.
  assert (Hid : request_id r = _request_id st + 1).
  { rewrite (reply_of_id _ _ _ (process_request_id tk linesep _ _) Hreply).
    apply req_id_request_of. }
  rewrite (invoke_matching (worker_recv tk linesep) m st [] [] r Halive);
    [| rewrite Hinbox, Hrecv; reflexivity | constructor | exact Hid ].
  cbn [fst snd]. split; [reflexivity|].
  assert (Hs : forall (o : outcome pyval) (st0 : Ctl (Worker G)),
             peer (settle m o st0) = peer st0)
    by (intros o st0; destruct m, o; reflexivity).
  rewrite Hs. cbn. rewrite peer_deliver. cbn. rewrite Hrecv. reflexivity.
Qed.

(** A command whose [process] raises: the error response goes out, the
    poller stays in its loop, and the method raises the error's text as
    [WebViewException], unless that text is empty, in which case the
    method goes on as if the worker had answered [None]. *)
Lemma command_failure (m : method) (st : Ctl (Worker G)) (e : exn)
    (wk1 : Worker G) :
  ready st ->
  process_request tk linesep (request_of m (_request_id st + 1)) (peer st)
    = (Raise e, wk1) ->
  worker_recv tk linesep (request_of m (_request_id st + 1)) (peer st)
    = ([mkResponse (_request_id st + 1) PNone (Some (exn_msg e))],
       push_out (mkResponse (_request_id st + 1) PNone (Some (exn_msg e))) wk1)
  /\ polling (push_out (mkResponse (_request_id st + 1) PNone
                          (Some (exn_msg e))) wk1) = true
  /\ fst (invoke (worker_recv tk linesep) m st)
     = if str_truthy (exn_msg e)
       then Raise (Exn WebViewException (exn_msg e))
       else conclude m (Return PNone).
Proof.
  intros Hready Hproc.
  assert (Hreply :
            reply_of (request_of m (_request_id st + 1))
              (fst (process_request tk linesep
                      (request_of m (_request_id st + 1)) (peer st)))
            = Some (mkResponse (_request_id st + 1) PNone (Some (exn_msg e))))
    by (rewrite Hproc; cbn; rewrite req_id_request_of; reflexivity).
  destruct Hready as (Halive & Hinbox & Hpoll & Hok).
  split.
  { rewrite (worker_recv_request tk linesep _ _ _ Hpoll Hok Hreply).
    rewrite Hproc. reflexivity. }
  split.
  { destruct (process_request_pipe tk linesep
                (request_of m (_request_id st + 1)) (peer st)) as (_ & _ & Hp).
    rewrite Hproc in Hp. cbn in *. congruence. }
  destruct (ready_invoke m st _ (conj Halive (conj Hinbox (conj Hpoll Hok)))
              Hreply) as [-> _].
  unfold complete. cbn. destruct (str_truthy (exn_msg e)); reflexivity.
Qed.

(** C4. The failing input: a toolkit call that raises an exception whose
    text is empty.  The worker answers with the request's identifier, no
    result and the empty text as error, and stays in its loop; the facade,
    reading that response, returns [None] and raises nothing. *)
Theorem empty_failure_text_is_swallowed (st : Ctl (Worker G))
    (js_code : string) (e : exn) (g : G) :
  ready st ->
  window_evaluate_js tk js_code (toolkit_state (peer st)) = (Raise e, g) ->
  exn_msg e = "" ->
  worker_recv tk linesep
    (EvaluateJavascriptRequest (_request_id st + 1) js_code) (peer st)
    = ([mkResponse (_request_id st + 1) PNone (Some "")],
       push_out (mkResponse (_request_id st + 1) PNone (Some ""))
         (set_toolkit_state g (peer st)))
  /\ polling (snd (worker_recv tk linesep
                     (EvaluateJavascriptRequest (_request_id st + 1) js_code)
                     (peer st))) = true
  /\ fst (evaluate_javascript (worker_recv tk linesep) js_code st)
     = Return PNone.
Proof.
  intros Hready Hjs Hmsg.
  assert (Hproc :
            process_request tk linesep
              (request_of (m_evaluate_javascript js_code) (_request_id st + 1))
              (peer st)
            = (Raise e, set_toolkit_state g (peer st))).
  { cbn. unfold EvaluateJavascriptRequest_process, call_toolkit. run_monad.
    rewrite Hjs. reflexivity. }
  destruct (command_failure (m_evaluate_javascript js_code) st e _ Hready Hproc)
    as (Hrecv & Hpoll & Hout).
  rewrite Hmsg in Hrecv, Hpoll, Hout.
  cbn [request_of] in Hrecv.
  rewrite Hrecv. cbn [snd].
  split; [reflexivity|]. split; [exact Hpoll|].
  exact Hout.
Qed.

(** *** Picking files *)

Lemma PickFileRequest_process_returns (rid : Z) (file_types : list string)
    (multiple : bool) (wk : Worker G) (d : dialog_result) (g : G) :
  window_create_file_dialog tk OPEN_DIALOG "" multiple ""
    (dialog_filters file_types) (toolkit_state wk) = (Return d, g) ->
  PickFileRequest_process tk rid file_types multiple wk
  = (Return (mkResponse rid (PList (map PStr (picked_paths d))) None),
     set_toolkit_state g wk).
Proof.
  intros Hd. unfold PickFileRequest_process, call_toolkit. run_monad.
  rewrite Hd. reflexivity.
Qed.

(** C10. Whenever the open dialog comes back, [PickFileRequest.process]
    answers with a list of strings and no error: one path becomes a
    one-element list, no selection or an empty one the empty list, a
    sequence its elements; and [pick_file] on a ready system unwraps that
    list without fail. *)
Theorem pick_file_result_is_a_list (st : Ctl (Worker G))
    (file_types : option (list string)) (multiple : bool)
    (d : dialog_result) (g : G) :
  ready st ->
  window_create_file_dialog tk OPEN_DIALOG "" multiple ""
    (dialog_filters (match file_types with
                     | Some l => l
                     | None => []
                     end))
    (toolkit_state (peer st)) = (Return d, g) ->
  fst (process_request tk linesep
         (request_of (m_pick_file file_types multiple) (_request_id st + 1))
         (peer st))
    = Return (mkResponse (_request_id st + 1)
                (PList (map PStr (picked_paths d))) None)
  /\ (forall s, picked_paths (DStr s) = [s])
  /\ picked_paths DNone = []
  /\ picked_paths (DSeq []) = []
  /\ (forall l, picked_paths (DSeq l) = l)
  /\ fst (pick_file (worker_recv tk linesep) file_types multiple st)
     = Return (if multiple then PList (map PStr (picked_paths d))
               else match picked_paths d with
                    | [] => PNone
                    | x :: _ => PStr x
                    end).
Proof.
  intros Hready Hd.
  assert (Hproc :
            process_request tk linesep
              (request_of (m_pick_file file_types multiple) (_request_id st + 1))
              (peer st)
            = (Return (mkResponse (_request_id st + 1)
                         (PList (map PStr (picked_paths d))) None),
               set_toolkit_state g (peer st))).
  { cbn [request_of process_request].
    apply PickFileRequest_process_returns.
    destruct file_types as [[|x l]|]; exact Hd. }
  split; [rewrite Hproc; reflexivity|].
  split; [reflexivity|]. split; [reflexivity|]. split; [reflexivity|].
  split; [intros [|x l]; reflexivity|].
  change (pick_file (worker_recv tk linesep) file_types multiple)
    with (invoke (worker_recv tk linesep) (m_pick_file file_types multiple)).
  destruct (ready_invoke (m_pick_file file_types multiple) st
              (mkResponse (_request_id st + 1)
                 (PList (map PStr (picked_paths d))) None) Hready)
    as [-> _]; [rewrite Hproc; reflexivity|].
  cbn. unfold pick_file_result.
  destruct multiple; [reflexivity|].
  destruct (picked_paths d); reflexivity.
Qed.

(** *** Saving files *)


(** [SaveFileRequest.process], case by case, once the dialog is back. *)
Lemma SaveFileRequest_process_cases (rid : Z) (c : contents)
    (file_name : string) (directory : option string) (wk : Worker G)
    (d : dialog_result) (g : G) :
  window_create_file_dialog tk SAVE_DIALOG
    (if opt_str_truthy directory then py_str_opt directory else "")
    false file_name [] (toolkit_state wk) = (Return d, g) ->
  SaveFileRequest_process tk linesep rid c file_name directory wk
  = if negb (dialog_truthy d) then
      (Return (mkResponse rid (PBool false) None), set_toolkit_state g wk)
    else if decide (chosen d ∈ denied wk) then
      (Raise (Exn OSError ("cannot open " +:+ chosen d)),
       set_toolkit_state g wk)
    else
      match c with
      | Text cps =>
          match utf8_encode (translate_newlines linesep cps) with
          | Some bs =>
              (Return (mkResponse rid (PBool true) None),
               set_files (<[chosen d := bs]> (files wk))
                 (set_toolkit_state g wk))
          | None =>
              (Raise (Exn UnicodeEncodeError
                        "'utf-8' codec can't encode character: surrogates not allowed"),
               set_files (<[chosen d := []]> (files wk))
                 (set_toolkit_state g wk))
          end
      | Bytes bs =>
          (Return (mkResponse rid (PBool true) None),
           set_files (<[chosen d := bs]> (files wk)) (set_toolkit_state g wk))
      | Other tyname =>
          (Raise (Exn TypeError
                    ("a bytes-like object is required, not '"
                       +:+ tyname +:+ "'")),
           set_files (<[chosen d := []]> (files wk)) (set_toolkit_state g wk))
      end.
Proof.
  intros Hd.
  unfold SaveFileRequest_process, call_toolkit, open_for_writing, write_text,
    write_binary.
  run_monad. rewrite Hd. cbn.
  destruct (dialog_truthy d); cbn; [|reflexivity].
  change (match d with
          | DNone => ""
          | DStr s => s
          | DSeq l => hd "" l
          end) with (chosen d).
  destruct c as [cps|bs|tyname]; cbn;
    destruct (decide (chosen d ∈ denied wk)); cbn; try reflexivity.
  - destruct (utf8_encode (translate_newlines linesep cps)); cbn;
      [rewrite insert_insert_eq|]; reflexivity.
  - rewrite insert_insert_eq. reflexivity.
Qed.

Lemma str_falsy_empty (s : string) : str_truthy s = false -> s = "".
Proof.
  unfold str_truthy. intros H. apply negb_false_iff in H.
  apply String.eqb_eq. exact H.
Qed.

(** The directory the worker passes to the save dialog, in terms of what
    the caller of [save_file] gave. *)
Lemma save_directory (directory : option string) :
  (if opt_str_truthy (if opt_str_truthy directory then directory else None)
   then py_str_opt (if opt_str_truthy directory then directory else None)
   else "")
  = match directory with
    | Some s => s
    | None => ""
    end.
Proof.
  destruct directory as [s|]; [|reflexivity].
  cbn. destruct (str_truthy s) eqn:Hs; cbn.
  - rewrite Hs. reflexivity.
  - symmetry. apply str_falsy_empty, Hs.
Qed.



End SystemFacts.

(** ** Startup *)

Section StartupFacts.

Context {P G : Type}.
Variable peer_boot : Config -> list string -> P -> list Response * P.
Variable peer_recv : Request -> P -> list Response * P.
Variable tk : Toolkit G.
Variable linesep : list N.

(** What the handshake of [start] reads is [handshake_stream]. *)
Lemma start_reads_handshake_stream (st : Ctl P) :
  conn_inbox
    (deliver peer_recv (PingRequest (_request_id st + 1))
       (bump_request_id
          (set_is_alive true
             (boot peer_boot
                (set_process (Some (mkProcess false (take 1 (sys_argv st))))
                   (set_argv (take 1 (sys_argv st)) st))))))
  = handshake_stream peer_boot peer_recv st.
Proof.
  unfold deliver, boot, handshake_stream. cbn.
  destruct (peer_boot (config st) (take 1 (sys_argv st)) (peer st))
    as [msgs p1]. cbn.
  destruct (peer_recv (PingRequest (_request_id st + 1)) p1)
    as [replies p2]. cbn.
  symmetry. apply app_assoc.
Qed.

(** C2. A worker whose [create_window] raises writes one response numbered
    0 that carries the failure's text, then closes its end and is done.
    A [start] that reads, after responses that are neither numbered 0 nor
    numbered like its ping, a response numbered 0 raises at once with that
    response's error; the responses before it were read and dropped, and
    on their own they keep the handshake waiting. *)
Theorem startup_failure_uses_sentinel (self : Config) (evs : list conn_event)
    (wk : Worker G) (e : exn) (g : G)
    (st : Ctl P) (pre post : list Response) (r : Response) :
  conn_ok wk = true ->
  create_window tk (title self) (url self)
    (match width self with
     | Some w => if w =? 0 then 800 else w
     | None => 800
     end)
    (match height self with
     | Some h => if h =? 0 then 600 else h
     | None => 600
     end) (toolkit_state wk) = (Raise e, g) ->
  already_running st = false ->
  spawn_failure st = None ->
  handshake_stream peer_boot peer_recv st = pre ++ r :: post ->
  Forall (fun x => request_id x <> 0 /\ request_id x <> _request_id st + 1)
    pre ->
  request_id r = 0 ->
  (fst (_run_webview tk linesep self evs wk) = Return tt
   /\ conn_out (snd (_run_webview tk linesep self evs wk))
      = conn_out wk ++ [mkResponse 0 PNone (Some (exn_msg e))]
   /\ conn_ok (snd (_run_webview tk linesep self evs wk)) = false)
  /\ fst (start peer_boot peer_recv st)
     = Raise (Exn RuntimeError
                ("Webview initialization failed: "
                   +:+ py_str_opt (error r)))
  /\ conn_inbox (snd (start peer_boot peer_recv st)) = post
  /\ _wait_for_window_loop (_request_id st + 1) pre = (Blocked, []).
Proof.
  intros Hok Hcreate Hrun Hos Hstream Hpre Hr.
  split.
  { rewrite (_run_webview_create_fails tk linesep self evs wk e g Hok Hcreate).
    repeat split. }
  rewrite start_unfold, Hrun, Hos. cbv zeta.
  rewrite start_reads_handshake_stream, Hstream.
  rewrite _wait_for_window_loop_skip by exact Hpre.
  rewrite _wait_for_window_loop_sentinel by exact Hr.
  cbn [fst snd]. split; [reflexivity|]. split; [reflexivity|].
  rewrite <- (app_nil_r pre).
  rewrite _wait_for_window_loop_skip by exact Hpre. reflexivity.
Qed.

End StartupFacts.

(** * Worked examples *)

(** UTF-8 test vectors: ASCII, two, three and four byte forms. *)
Example utf8_encode_hello : utf8_encode (text_of "hello") = Some (bytes_of "hello").
Proof. reflexivity. Qed.

Example utf8_encode_multibyte :
  utf8_encode [0xE9; 0x20AC; 0x1F600]%N
  = Some (map byte_of_N [0xC3; 0xA9; 0xE2; 0x82; 0xAC; 0xF0; 0x9F; 0x98; 0x80]%N).
Proof. reflexivity. Qed.

Example utf8_encode_surrogate : utf8_encode [0x61; 0xD800]%N = None.
Proof. reflexivity. Qed.

(** On a platform whose line separator is CR LF, the text ["a\nb"] reaches
    the file as [a], CR, LF, [b]: not the UTF-8 bytes of the text. *)
Example save_file_translates_newlines :
  files (peer (snd (save_file
                      (worker_recv
                         (fixed_toolkit (Return tt) (Return (DStr "out.txt"))
                            (Return PNone))
                         [13; 10]%N)
                      (Text [0x61; 10; 0x62]%N) "out.txt" None
                      (demo_started (demo_worker ∅)))))
    !! "out.txt"
  = Some (map byte_of_N [0x61; 13; 10; 0x62]%N).
Proof. vm_compute. reflexivity. Qed.

(** Text with a lone surrogate: the file has been emptied when the encoder
    gives up, and [save_file] raises. *)
Example save_file_surrogate_text :
  exists msg,
    fst (save_file (worker_recv demo_save_toolkit [10%N])
           (Text [0xD800]%N) "out.txt" None
           (demo_started (demo_worker {["out.txt" := bytes_of "old"]})))
      = Raise (Exn WebViewException msg)
    /\ files (peer (snd (save_file (worker_recv demo_save_toolkit [10%N])
                           (Text [0xD800]%N) "out.txt" None
                           (demo_started
                              (demo_worker {["out.txt" := bytes_of "old"]})))))
         !! "out.txt" = Some [].
Proof. eexists. vm_compute. split; reflexivity. Qed.

(** A failure with a text is raised by the facade under that text. *)
Example evaluate_javascript_failure_raised :
  fst (evaluate_javascript
         (worker_recv
            (fixed_toolkit (Return tt) (Return DNone)
               (Raise (Exn ToolkitError "boom")))
            [10%N])
         "1+1" (demo_started (demo_worker ∅)))
  = Raise (Exn WebViewException "boom").
Proof. vm_compute. reflexivity. Qed.

(** One picked file, asked for with [multiple=False]. *)
Example pick_file_a_txt :
  fst (pick_file scripted_recv (Some ["txt"]) false
         (demo_started [[mkResponse 2 (PList [PStr "a.txt"]) None]]))
  = Return (PStr "a.txt").
Proof. vm_compute. reflexivity. Qed.

(** A handshake over a mocked pipe: the left-over response is dropped, the
    answer to the ping ends the wait, and [sys.argv] is back. *)
Example start_skips_stale_response :
  start scripted_boot scripted_recv
    (new_instance demo_config ["app.py"; "-v"]
       [[stale_response; mkResponse 1 (PBool true) None; extra_response]]
       None true)
  = (Return tt,
     {| config := demo_config;
        process := Some (mkProcess true ["app.py"]);
        _is_alive := true; _request_id := 1;
        sys_argv := ["app.py"; "-v"];
        conn_sent := [PingRequest 1]; conn_inbox := [extra_response];
        peer := []; spawn_failure := None; worker_exits := true;
        issued := [1] |}).
Proof. vm_compute. reflexivity. Qed.

(** A whole session against a real worker: boot, handshake, a title change
    and a save. *)
Example session_saves_hello :
  let tk := fixed_toolkit (Return tt) (Return (DStr "hello.txt")) (Return PNone) in
  let st :=
    perform_all (worker_boot tk [10%N]) (worker_recv tk [10%N])
      [c_start; c_method (m_set_title "New Title");
       c_method (m_save_file (Text (text_of "hello")) "hello.txt" None)]
      (new_instance demo_config ["app.py"; "--port"; "80"] demo_fresh_worker
         None true) in
  files (peer st) !! "hello.txt" = Some (bytes_of "hello")
  /\ map req_id (conn_sent st) = [1; 2; 3]
  /\ issued st = [1; 2; 3]
  /\ conn_inbox st = []
  /\ sys_argv st = ["app.py"; "--port"; "80"]
  /\ option_map inherited_argv (process st) = Some ["app.py"].
Proof. vm_compute. repeat split. Qed.


(** A window operation that raises an exception without text, as
    [raise ValueError()] does.  The worker answers request 2 with the empty
    string as error; [resize] reads that answer and returns, it does not
    raise. *)
Lemma resize_returns_on_empty_error :
  fst (resize
         (worker_recv
            (recording_toolkit (Raise (Exn ToolkitError "")) (Return DNone)
               (Return PNone) Blocked) [10%N])
         800 600 (demo_started (logging_worker [])))
    = Return PNone
  /\ conn_out
       (peer (snd (resize
                     (worker_recv
                        (recording_toolkit (Raise (Exn ToolkitError ""))
                           (Return DNone) (Return PNone) Blocked) [10%N])
                     800 600 (demo_started (logging_worker [])))))
     = [mkResponse 2 PNone (Some "")].
Proof. split; vm_compute; reflexivity. Qed.

(** The same with [close]: the window's [destroy] raised, the answer to
    [Close] carries the empty string as error, and [close] returns and
    clears the alive flag, so that the next method is turned away. *)
Lemma close_returns_on_empty_error :
  fst (close
         (worker_recv
            (recording_toolkit (Raise (Exn ToolkitError "")) (Return DNone)
               (Return PNone) Blocked) [10%N])
         (demo_started (logging_worker [])))
    = Return PNone
  /\ conn_out
       (peer (snd (close
                     (worker_recv
                        (recording_toolkit (Raise (Exn ToolkitError ""))
                           (Return DNone) (Return PNone) Blocked) [10%N])
                     (demo_started (logging_worker [])))))
     = [mkResponse 2 PNone (Some "")]
  /\ _is_alive
       (snd (close
               (worker_recv
                  (recording_toolkit (Raise (Exn ToolkitError ""))
                     (Return DNone) (Return PNone) Blocked) [10%N])
               (demo_started (logging_worker []))))
     = false
  /\ fst (set_title
            (worker_recv
               (recording_toolkit (Raise (Exn ToolkitError "")) (Return DNone)
                  (Return PNone) Blocked) [10%N])
            "again"
            (snd (close
                    (worker_recv
                       (recording_toolkit (Raise (Exn ToolkitError ""))
                          (Return DNone) (Return PNone) Blocked) [10%N])
                    (demo_started (logging_worker [])))))
     = Raise (Exn RuntimeError "Webview process is not running.").
Proof. repeat split; vm_compute; reflexivity. Qed.

(** Contents that do not pickle, here a generator: [save_file] raises what
    pickling raised, only the [Ping] of the handshake has been sent, and
    [out.txt] is as it was. *)
Lemma save_file_generator_sends_nothing :
  fst (save_file_object (worker_recv demo_save_toolkit [10%N])
         (NoPickle (Exn TypeError "cannot pickle 'generator' object"))
         "out.txt" None
         (demo_started (demo_worker {["out.txt" := bytes_of "old"]})))
    = Raise (Exn TypeError "cannot pickle 'generator' object")
  /\ conn_sent
       (snd (save_file_object (worker_recv demo_save_toolkit [10%N])
               (NoPickle (Exn TypeError "cannot pickle 'generator' object"))
               "out.txt" None
               (demo_started (demo_worker {["out.txt" := bytes_of "old"]}))))
     = [PingRequest 1]
  /\ files
       (peer (snd (save_file_object (worker_recv demo_save_toolkit [10%N])
                     (NoPickle
                        (Exn TypeError "cannot pickle 'generator' object"))
                     "out.txt" None
                     (demo_started
                        (demo_worker {["out.txt" := bytes_of "old"]})))))
       !! "out.txt"
     = Some (bytes_of "old").
Proof. repeat split; vm_compute; reflexivity. Qed.

(** ** The statements above at concrete inputs *)


Lemma startup_failure_uses_sentinel_witness :
  handshake_stream
    (worker_boot
       (fixed_toolkit (Raise (Exn ToolkitError "no display")) (Return DNone)
          (Return PNone)) [10%N])
    (worker_recv
       (fixed_toolkit (Raise (Exn ToolkitError "no display")) (Return DNone)
          (Return PNone)) [10%N])
    (new_instance demo_config ["app.py"; "-v"] demo_fresh_worker None true)
    = [mkResponse 0 PNone (Some "no display")]
  /\ fst (start
            (worker_boot
               (fixed_toolkit (Raise (Exn ToolkitError "no display"))
                  (Return DNone) (Return PNone)) [10%N])
            (worker_recv
               (fixed_toolkit (Raise (Exn ToolkitError "no display"))
                  (Return DNone) (Return PNone)) [10%N])
            (new_instance demo_config ["app.py"; "-v"] demo_fresh_worker
               None true))
     = Raise (Exn RuntimeError "Webview initialization failed: no display").
Proof.
  assert (Hstream :
            handshake_stream
              (worker_boot
                 (fixed_toolkit (Raise (Exn ToolkitError "no display"))
                    (Return DNone) (Return PNone)) [10%N])
              (worker_recv
                 (fixed_toolkit (Raise (Exn ToolkitError "no display"))
                    (Return DNone) (Return PNone)) [10%N])
              (new_instance demo_config ["app.py"; "-v"] demo_fresh_worker
                 None true)
            = [] ++ mkResponse 0 PNone (Some "no display") :: [])
    by (vm_compute; reflexivity).
  pose proof
    (startup_failure_uses_sentinel
       (worker_boot
          (fixed_toolkit (Raise (Exn ToolkitError "no display")) (Return DNone)
             (Return PNone)) [10%N])
       (worker_recv
          (fixed_toolkit (Raise (Exn ToolkitError "no display")) (Return DNone)
             (Return PNone)) [10%N])
       (fixed_toolkit (Raise (Exn ToolkitError "no display")) (Return DNone)
          (Return PNone))
       [10%N] demo_config [] demo_fresh_worker
       (Exn ToolkitError "no display") tt
       (new_instance demo_config ["app.py"; "-v"] demo_fresh_worker None true)
       [] [] (mkResponse 0 PNone (Some "no display"))
       eq_refl eq_refl eq_refl eq_refl Hstream (Forall_nil_2 _) eq_refl) as H.
  exact (conj Hstream (proj1 (proj2 H))).
Defined.

Lemma empty_failure_text_is_swallowed_witness :
  ready (demo_started (demo_worker ∅))
  /\ fst (evaluate_javascript
            (worker_recv
               (fixed_toolkit (Return tt) (Return DNone)
                  (Raise (Exn ToolkitError ""))) [10%N])
            "1+1" (demo_started (demo_worker ∅)))
     = Return PNone.
Proof.
  assert (Hready : ready (demo_started (demo_worker ∅)))
    by (repeat split).
  pose proof
    (empty_failure_text_is_swallowed
       (fixed_toolkit (Return tt) (Return DNone) (Raise (Exn ToolkitError "")))
       [10%N] (demo_started (demo_worker ∅)) "1+1" (Exn ToolkitError "") tt
       Hready eq_refl eq_refl) as H.
  exact (conj Hready (proj2 (proj2 H))).
Defined.


Lemma not_alive_raises_without_channel_witness :
  _is_alive (new_instance demo_config ["app.py"] [[extra_response]] None true)
    = false
  /\ invoke scripted_recv (m_set_title "New Title")
       (new_instance demo_config ["app.py"] [[extra_response]] None true)
     = (Raise (Exn RuntimeError "Webview process is not running."),
        bump_request_id
          (new_instance demo_config ["app.py"] [[extra_response]] None true)).
Proof.
  exact (conj eq_refl
           (proj1 (not_alive_raises_without_channel scripted_recv
                     (m_set_title "New Title")
                     (new_instance demo_config ["app.py"] [[extra_response]]
                        None true)
                     eq_refl))).
Defined.

Lemma pick_file_unwraps_result_witness :
  fst (pick_file scripted_recv (Some ["txt"]) false
         (demo_started [[mkResponse 2 (PList [PStr "a.txt"]) None]]))
    = Return (PStr "a.txt")
  /\ fst (pick_file scripted_recv (Some ["txt"]) false
            (demo_started [[mkResponse 2 (PList []) None]]))
     = Return PNone
  /\ fst (pick_file scripted_recv (Some ["txt"]) true
            (demo_started
               [[mkResponse 2 (PList [PStr "a.txt"; PStr "b.txt"]) None]]))
     = Return (PList [PStr "a.txt"; PStr "b.txt"]).
Proof.
  split; [|split].
  - exact (pick_file_unwraps_result scripted_recv (Some ["txt"]) false
             (demo_started [[mkResponse 2 (PList [PStr "a.txt"]) None]])
             [] [] (mkResponse 2 (PList [PStr "a.txt"]) None) [PStr "a.txt"]
             eq_refl eq_refl (Forall_nil_2 _) eq_refl eq_refl eq_refl).
  - exact (pick_file_unwraps_result scripted_recv (Some ["txt"]) false
             (demo_started [[mkResponse 2 (PList []) None]])
             [] [] (mkResponse 2 (PList []) None) []
             eq_refl eq_refl (Forall_nil_2 _) eq_refl eq_refl eq_refl).
  - exact (pick_file_unwraps_result scripted_recv (Some ["txt"]) true
             (demo_started
                [[mkResponse 2 (PList [PStr "a.txt"; PStr "b.txt"]) None]])
             [] []
             (mkResponse 2 (PList [PStr "a.txt"; PStr "b.txt"]) None)
             [PStr "a.txt"; PStr "b.txt"]
             eq_refl eq_refl (Forall_nil_2 _) eq_refl eq_refl eq_refl).
Defined.

Lemma close_on_error_response_witness :
  (fst (close scripted_recv
          (demo_started [[mkResponse 2 PNone (Some "window is gone")]]))
     = Raise (Exn WebViewException "window is gone")
   /\ _is_alive
        (snd (close scripted_recv
                (demo_started [[mkResponse 2 PNone (Some "window is gone")]])))
      = true)
  /\ fst (close scripted_recv (demo_started [[mkResponse 2 PNone (Some "")]]))
     = Return PNone
  /\ _is_alive
       (snd (close scripted_recv
               (demo_started [[mkResponse 2 PNone (Some "")]])))
     = false
  /\ fst (set_title scripted_recv "again"
            (snd (close scripted_recv
                    (demo_started [[mkResponse 2 PNone (Some "")]]))))
     = Raise (Exn RuntimeError "Webview process is not running.").
Proof.
  pose proof
    (close_on_error_response scripted_recv
       (demo_started [[mkResponse 2 PNone (Some "window is gone")]])
       [] [] (mkResponse 2 PNone (Some "window is gone")) "window is gone"
       eq_refl eq_refl (Forall_nil_2 _) eq_refl eq_refl) as H.
  pose proof
    (close_on_error_response scripted_recv
       (demo_started [[mkResponse 2 PNone (Some "")]])
       [] [] (mkResponse 2 PNone (Some "")) ""
       eq_refl eq_refl (Forall_nil_2 _) eq_refl eq_refl) as Hempty.
  cbv beta iota delta [String.eqb Ascii.eqb Bool.eqb] in H, Hempty.
  split; [exact (conj (proj1 H) (proj1 (proj2 H)))|].
  split; [exact (proj1 Hempty)|].
  split; [exact (proj1 (proj2 Hempty))|].
  exact (proj2 (proj2 Hempty) (m_set_title "again")).
Defined.

Lemma pick_file_result_is_a_list_witness :
  fst (pick_file
         (worker_recv
            (fixed_toolkit (Return tt) (Return (DStr "file.txt")) (Return PNone))
            [10%N])
         (Some ["txt"]) false (demo_started (demo_worker ∅)))
    = Return (PStr "file.txt")
  /\ fst (pick_file
            (worker_recv
               (fixed_toolkit (Return tt) (Return DNone) (Return PNone))
               [10%N])
            None false (demo_started (demo_worker ∅)))
     = Return PNone.
Proof.
  assert (Hready : ready (demo_started (demo_worker ∅))) by (repeat split).
  split.
  - exact (proj2 (proj2 (proj2 (proj2 (proj2
             (pick_file_result_is_a_list
                (fixed_toolkit (Return tt) (Return (DStr "file.txt"))
                   (Return PNone))
                [10%N] (demo_started (demo_worker ∅)) (Some ["txt"]) false
                (DStr "file.txt") tt Hready eq_refl)))))).
  - exact (proj2 (proj2 (proj2 (proj2 (proj2
             (pick_file_result_is_a_list
                (fixed_toolkit (Return tt) (Return DNone) (Return PNone))
                [10%N] (demo_started (demo_worker ∅)) None false
                DNone tt Hready eq_refl)))))).
Defined.

(** * Further properties *)

(** ** The poller *)

Section PollerFacts.

Context {G : Type}.
Variable tk : Toolkit G.
Variable linesep : list N.

(** One turn of [handle_commands], by the event it meets. *)
Lemma handle_commands_step (ev : conn_event) (evs : list conn_event)
    (wk : Worker G) :
  handle_commands tk linesep (ev :: evs) wk
  = match ev with
    | Incoming (Some request) =>
        if conn_ok wk then
          match reply_of request
                  (fst (process_request tk linesep request wk)) with
          | Some r =>
              handle_commands tk linesep evs
                (push_out r (snd (process_request tk linesep request wk)))
          | None => (Blocked, snd (process_request tk linesep request wk))
          end
        else (Return Finished, set_polling false wk)
    | Quiet =>
        if conn_ok wk then handle_commands tk linesep evs wk
        else (Return Finished, set_polling false wk)
    | _ => (Return Finished, set_polling false wk)
    end.
Proof.
  destruct ev as [|[request|]|].
  - cbn [handle_commands]. unfold poll_turn. run_monad.
    destruct (conn_ok wk); reflexivity.
  - destruct (conn_ok wk) eqn:Hok.
    + destruct (reply_of request (fst (process_request tk linesep request wk)))
        as [r|] eqn:Hreply.
      * apply handle_commands_request; assumption.
      * cbn [handle_commands]. unfold poll_turn, answer, conn_send.
        unfold bind, gets, ret, try_except, modify, raise. rewrite Hok.
        destruct (process_request tk linesep request wk) as [[r|e|] wk1];
          cbn in Hreply; try discriminate. reflexivity.
    + cbn [handle_commands]. unfold poll_turn. run_monad. rewrite Hok.
      reflexivity.
  - cbn [handle_commands]. unfold poll_turn. run_monad.
    destruct (conn_ok wk); reflexivity.
  - cbn [handle_commands]. unfold poll_turn. run_monad. reflexivity.
Qed.

(** What [process] returns carries no error. *)
Lemma returns_only_ret {A} (Q : A -> Prop) (a : A) :
  Q a -> returns_only (G:=G) Q (ret a).
Proof. intros H wk a' [= <-]. exact H. Qed.

Lemma returns_only_bind {A B} (Q : B -> Prop) (m : M (Worker G) A)
    (k : A -> M (Worker G) B) :
  (forall a, returns_only Q (k a)) -> returns_only Q (bind m k).
Proof.
  intros Hk wk b. unfold bind.
  destruct (m wk) as [[a|e|] wk1]; cbn [fst]; try discriminate.
  apply Hk.
Qed.

Lemma process_request_no_error (request : Request) (wk : Worker G)
    (r : Response) :
  fst (process_request tk linesep request wk) = Return r -> error r = None.
Proof.
  revert wk r.
  change (returns_only (fun r => error r = None)
            (process_request tk linesep request)).
  destruct request; cbn [process_request];
    unfold CloseRequest_process, ResizeRequest_process,
      SetTitleRequest_process, ToggleFullscreenRequest_process,
      SetMaximizedRequest_process, PickFileRequest_process,
      SaveFileRequest_process, EvaluateJavascriptRequest_process,
      PingRequest_process;
    repeat first
      [ apply returns_only_ret; reflexivity
      | apply returns_only_bind; intros ?
      | match goal with
        | |- returns_only _ (if ?c then _ else _) => destruct c
        end ].
Qed.

Lemma reply_of_shape (request : Request) (wk : Worker G) (r : Response) :
  reply_of request (fst (process_request tk linesep request wk)) = Some r ->
  request_id r = req_id request /\ result_xor_error r.
Proof.
  intros Hreply. split.
  - exact (reply_of_id _ _ _ (process_request_id tk linesep request wk) Hreply).
  - destruct (fst (process_request tk linesep request wk)) as [r'|e|] eqn:Hp;
      cbn in Hreply; try discriminate; injection Hreply as <-.
    + left. exact (process_request_no_error request wk r' Hp).
    + right. reflexivity.
Qed.

(** X1. Whatever reaches the poller and whatever the toolkit does, the
    responses it writes answer the requests it received in the order they
    came, one response per request, up to some point: their identifiers are
    a prefix of the requests' identifiers, and each carries a result or an
    error, never both. *)
Theorem poller_answers_in_order (evs : list conn_event) (wk : Worker G) :
  exists rs,
    conn_out (snd (handle_commands tk linesep evs wk)) = conn_out wk ++ rs
    /\ map request_id rs `prefix_of` map req_id (requests_in evs)
    /\ Forall result_xor_error rs.
Proof.
  revert wk. induction evs as [|ev evs IH]; intros wk.
  { exists []. cbn. rewrite app_nil_r.
    split; [reflexivity|]. split; [apply prefix_nil|constructor]. }
  assert (Hstop : exists rs,
             conn_out (set_polling false wk) = conn_out wk ++ rs
             /\ map request_id rs
                  `prefix_of` map req_id (requests_in (ev :: evs))
             /\ Forall result_xor_error rs).
  { exists []. cbn [map]. rewrite app_nil_r.
    split; [reflexivity|]. split; [apply prefix_nil|constructor]. }
  rewrite handle_commands_step.
  destruct ev as [|[request|]|]; try exact Hstop.
  - destruct (conn_ok wk); [|exact Hstop]. cbn [requests_in]. apply IH.
  - destruct (conn_ok wk); [|exact Hstop].
    destruct (process_request_pipe tk linesep request wk) as (Hout & _ & _).
    destruct (reply_of request (fst (process_request tk linesep request wk)))
      as [r|] eqn:Hreply.
    + destruct (reply_of_shape request wk r Hreply) as [Hid Hwf].
      destruct (IH (push_out r (snd (process_request tk linesep request wk))))
        as (rs & Hrs & Hpre & Hall).
      exists (r :: rs). cbn [requests_in map]. rewrite Hrs. cbn.
      rewrite Hout, <- app_assoc. split; [reflexivity|].
      split; [rewrite Hid; apply prefix_cons; exact Hpre|].
      constructor; assumption.
    + exists []. cbn [snd map]. rewrite Hout, app_nil_r.
      split; [reflexivity|]. split; [apply prefix_nil|constructor].
Qed.

(** X2. The poller run over two stretches of events is the poller run over
    the first and, if that leaves it waiting in its loop, over the second
    from where the first left the worker; a poller that has left its loop
    or hangs in the toolkit sees nothing of the second stretch. *)
Theorem handle_commands_app (evs1 evs2 : list conn_event) (wk : Worker G) :
  handle_commands tk linesep (evs1 ++ evs2) wk
  = match handle_commands tk linesep evs1 wk with
    | (Return Waiting, wk1) => handle_commands tk linesep evs2 wk1
    | r => r
    end.
Proof.
  revert wk. induction evs1 as [|ev evs1 IH]; intros wk; [reflexivity|].
  rewrite <- app_comm_cons, !handle_commands_step.
  destruct ev as [|[request|]|]; try reflexivity.
  - destruct (conn_ok wk); [apply IH|reflexivity].
  - destruct (conn_ok wk); [|reflexivity].
    destruct (reply_of request (fst (process_request tk linesep request wk)));
      [apply IH|reflexivity].
Qed.

(** X3. The [None] sentinel and a failure of the pipe end the poller, also
    after any number of idle turns: it leaves its loop having written
    nothing, and whatever arrives afterwards is never looked at. *)
Theorem poller_stops_at_sentinel_or_hangup (idle : nat) (ev : conn_event)
    (evs : list conn_event) (wk : Worker G) :
  ev = Incoming None \/ ev = Hangup ->
  handle_commands tk linesep (replicate idle Quiet ++ ev :: evs) wk
  = (Return Finished, set_polling false wk).
Proof.
  intros Hev. induction idle as [|idle IH]; cbn [replicate app].
  - rewrite handle_commands_step.
    destruct Hev as [-> | ->]; [destruct (conn_ok wk)|]; reflexivity.
  - rewrite handle_commands_step.
    destruct (conn_ok wk); [exact IH|reflexivity].
Qed.

(** *** A toolkit that always comes back *)

Lemma comes_back_ret {A} (a : A) : comes_back (G:=G) (ret a).
Proof. intros wk. discriminate. Qed.

Lemma comes_back_raise {A} (e : exn) : comes_back (G:=G) (A:=A) (raise e).
Proof. intros wk. discriminate. Qed.

Lemma comes_back_gets {A} (f : Worker G -> A) : comes_back (gets f).
Proof. intros wk. discriminate. Qed.

Lemma comes_back_modify (f : Worker G -> Worker G) : comes_back (modify f).
Proof. intros wk. discriminate. Qed.

Lemma comes_back_bind {A B} (m : M (Worker G) A) (k : A -> M (Worker G) B) :
  comes_back m -> (forall a, comes_back (k a)) -> comes_back (bind m k).
Proof.
  intros Hm Hk wk. unfold bind. specialize (Hm wk).
  destruct (m wk) as [[a|e|] wk1]; cbn [fst] in *;
    [apply Hk|discriminate|contradiction].
Qed.

Lemma comes_back_call_toolkit {A} (m : M G A) :
  (forall g, fst (m g) <> Blocked) -> comes_back (call_toolkit m).
Proof.
  intros Hm wk. unfold call_toolkit. specialize (Hm (toolkit_state wk)).
  destruct (m (toolkit_state wk)). exact Hm.
Qed.

Lemma comes_back_open_for_writing (destination : string) :
  comes_back (G:=G) (open_for_writing destination).
Proof.
  intros wk. unfold open_for_writing. run_monad.
  destruct (decide (destination ∈ denied wk)); discriminate.
Qed.

Lemma comes_back_write_text (destination : string) (cps : list N) :
  comes_back (G:=G) (write_text linesep destination cps).
Proof.
  intros wk. unfold write_text.
  destruct (utf8_encode (translate_newlines linesep cps)); discriminate.
Qed.

Lemma comes_back_write_binary (destination : string) (c : contents) :
  comes_back (G:=G) (write_binary destination c).
Proof. intros wk. destruct c; discriminate. Qed.

Lemma process_request_comes_back (request : Request) :
  responsive tk -> comes_back (process_request tk linesep request).
Proof.
  intros (Hcreate & Hdestroy & Hresize & Htitle & Htoggle & Hmax & Hrestore
          & Hdialog & Hjs).
  destruct request; cbn [process_request];
    unfold CloseRequest_process, ResizeRequest_process,
      SetTitleRequest_process, ToggleFullscreenRequest_process,
      SetMaximizedRequest_process, PickFileRequest_process,
      SaveFileRequest_process, EvaluateJavascriptRequest_process,
      PingRequest_process;
    repeat first
      [ apply comes_back_ret
      | apply comes_back_open_for_writing
      | apply comes_back_write_text
      | apply comes_back_write_binary
      | apply comes_back_call_toolkit; auto
      | apply comes_back_bind; [|intros ?]
      | match goal with
        | |- comes_back (if ?c then _ else _) => destruct c
        | |- comes_back (match ?c with _ => _ end) => destruct c
        end ].
Qed.

Lemma reply_of_responsive (request : Request) (wk : Worker G) :
  responsive tk ->
  exists r,
    reply_of request (fst (process_request tk linesep request wk)) = Some r.
Proof.
  intros Hresp. pose proof (process_request_comes_back request Hresp wk) as H.
  destruct (fst (process_request tk linesep request wk)) as [r|e|];
    [eexists; reflexivity..|contradiction].
Qed.

(** X4. With a toolkit that always comes back, on a usable pipe, and as
    long as neither the sentinel nor a pipe failure arrives, the poller
    answers every request it receives: one response per request, in the
    order of the requests and with their identifiers, and it is back
    waiting in its loop on a pipe that is still usable. *)
Theorem poller_answers_every_request (evs : list conn_event) (wk : Worker G) :
  responsive tk ->
  conn_ok wk = true ->
  Forall (fun ev => ev <> Incoming None /\ ev <> Hangup) evs ->
  fst (handle_commands tk linesep evs wk) = Return Waiting
  /\ conn_ok (snd (handle_commands tk linesep evs wk)) = true
  /\ polling (snd (handle_commands tk linesep evs wk)) = polling wk
  /\ exists rs,
       conn_out (snd (handle_commands tk linesep evs wk)) = conn_out wk ++ rs
       /\ map request_id rs = map req_id (requests_in evs).
Proof.
  intros Hresp Hok Hevs. revert wk Hok.
  induction Hevs as [|ev evs [Hnone Hhang] _ IH]; intros wk Hok.
  { cbn. repeat split; [exact Hok|]. exists []. rewrite app_nil_r.
    split; reflexivity. }
  rewrite handle_commands_step.
  destruct ev as [|[request|]|]; try contradiction; rewrite Hok.
  - cbn [requests_in]. apply IH, Hok.
  - destruct (process_request_pipe tk linesep request wk)
      as (Hout & Hok' & Hpoll).
    destruct (reply_of_responsive request wk Hresp) as [r Hreply].
    rewrite Hreply.
    destruct (reply_of_shape request wk r Hreply) as [Hid _].
    destruct (IH (push_out r (snd (process_request tk linesep request wk))))
      as (Hw & Hok2 & Hpoll2 & rs & Hrs & Hids).
    { cbn. rewrite Hok'. exact Hok. }
    split; [exact Hw|]. split; [exact Hok2|].
    split; [rewrite Hpoll2; cbn; exact Hpoll|].
    exists (r :: rs). rewrite Hrs. cbn. rewrite Hout, <- app_assoc.
    split; [reflexivity|]. rewrite Hid, Hids. reflexivity.
Qed.

End PollerFacts.

(** ** The worker's entry point *)

Section RunWebviewFacts.

Context {G : Type}.
Variable tk : Toolkit G.
Variable linesep : list N.

Lemma keeps_ret {A B} (proj : Worker G -> B) (a : A) : keeps proj (ret a).
Proof. intros wk. reflexivity. Qed.

Lemma keeps_raise {A B} (proj : Worker G -> B) (e : exn) :
  keeps (A:=A) proj (raise e).
Proof. intros wk. reflexivity. Qed.

Lemma keeps_gets {A B} (proj : Worker G -> B) (f : Worker G -> A) :
  keeps proj (gets f).
Proof. intros wk. reflexivity. Qed.

Lemma keeps_modify {B} (proj : Worker G -> B) (f : Worker G -> Worker G) :
  (forall wk, proj (f wk) = proj wk) -> keeps proj (modify f).
Proof. intros H wk. apply H. Qed.

Lemma keeps_bind {A A' B} (proj : Worker G -> B) (m : M (Worker G) A)
    (k : A -> M (Worker G) A') :
  keeps proj m -> (forall a, keeps proj (k a)) -> keeps proj (bind m k).
Proof.
  intros Hm Hk wk. unfold bind. specialize (Hm wk).
  destruct (m wk) as [[a|e|] wk1]; cbn [snd] in *; try exact Hm.
  rewrite Hk. exact Hm.
Qed.

Lemma keeps_try_except {A B} (proj : Worker G -> B) (m : M (Worker G) A)
    (h : exn -> M (Worker G) A) :
  keeps proj m -> (forall e, keeps proj (h e)) -> keeps proj (try_except m h).
Proof.
  intros Hm Hh wk. unfold try_except. specialize (Hm wk).
  destruct (m wk) as [[a|e|] wk1]; cbn [snd] in *; try exact Hm.
  rewrite Hh. exact Hm.
Qed.

Lemma keeps_when {B} (proj : Worker G -> B) (c : bool) (m : M (Worker G) unit) :
  keeps proj m -> keeps proj (when c m).
Proof. intros Hm. destruct c; [exact Hm|apply keeps_ret]. Qed.

Lemma keeps_call_toolkit {A B} (proj : Worker G -> B) (m : M G A) :
  (forall g wk, proj (set_toolkit_state g wk) = proj wk) ->
  keeps proj (call_toolkit m).
Proof.
  intros H wk. unfold call_toolkit. destruct (m (toolkit_state wk)). apply H.
Qed.

Lemma keeps_conn_send {B} (proj : Worker G -> B) (r : Response) :
  (forall r wk, proj (push_out r wk) = proj wk) -> keeps proj (conn_send r).
Proof.
  intros H wk. unfold conn_send. run_monad.
  destruct (conn_ok wk); [apply H|reflexivity].
Qed.

Lemma keeps_start_thread {A B} (proj : Worker G -> B) (body : M (Worker G) A) :
  (forall v wk, proj (set_polling v wk) = proj wk) ->
  keeps proj body -> keeps proj (start_thread body).
Proof.
  intros Hp Hb wk. unfold start_thread.
  specialize (Hb (set_polling true wk)).
  destruct (body (set_polling true wk)) as [[a|e|] wk1]; cbn [snd] in *;
    rewrite ?Hp, Hb; apply Hp.
Qed.

(** The poller leaves the worker's [sys.argv] and the state of its end of
    the pipe alone. *)
Lemma handle_commands_keeps_argv (evs : list conn_event) :
  keeps worker_argv (handle_commands tk linesep evs).
Proof.
  induction evs as [|ev evs IH]; intros wk; [reflexivity|].
  rewrite handle_commands_step.
  destruct ev as [|[request|]|]; try reflexivity.
  - destruct (conn_ok wk); [apply IH|reflexivity].
  - destruct (conn_ok wk); [|reflexivity].
    pose proof (process_request_keeps_pipe tk linesep request wk) as Hp.
    unfold pipe_of in Hp. injection Hp as _ _ _ Hargv.
    destruct (reply_of request (fst (process_request tk linesep request wk)));
      [rewrite IH|]; exact Hargv.
Qed.

Lemma handle_commands_keeps_conn_ok (evs : list conn_event) :
  keeps conn_ok (handle_commands tk linesep evs).
Proof.
  induction evs as [|ev evs IH]; intros wk; [reflexivity|].
  rewrite handle_commands_step.
  destruct ev as [|[request|]|]; try reflexivity.
  - destruct (conn_ok wk) eqn:Hok; [rewrite IH|cbn]; exact Hok.
  - destruct (conn_ok wk) eqn:Hok; [|cbn; exact Hok].
    destruct (process_request_pipe tk linesep request wk) as (_ & Hok' & _).
    destruct (reply_of request (fst (process_request tk linesep request wk)));
      [rewrite IH|]; cbn; rewrite Hok'; exact Hok.
Qed.

Ltac keeps_run_webview_body :=
  repeat first
    [ apply keeps_ret
    | apply keeps_conn_send; reflexivity
    | apply keeps_call_toolkit; reflexivity
    | apply handle_commands_keeps_argv
    | apply handle_commands_keeps_conn_ok
    | apply keeps_start_thread; [reflexivity|]
    | apply keeps_when
    | apply keeps_try_except; [|intros ?]
    | apply keeps_bind; [|intros ?] ].

(** X5. The worker's own [sys.argv]: [_run_webview] cuts it down to the
    program name for as long as it runs (so it is cut down while the event
    loop has the main thread), and when [_run_webview] is over, normally or
    not, [sys.argv] is what it was and the worker's end of the pipe is
    closed. *)
Theorem run_webview_restores_argv (self : Config) (evs : list conn_event)
    (wk : Worker G) :
  match fst (_run_webview tk linesep self evs wk) with
  | Blocked =>
      worker_argv (snd (_run_webview tk linesep self evs wk))
      = take 1 (worker_argv wk)
  | _ =>
      worker_argv (snd (_run_webview tk linesep self evs wk)) = worker_argv wk
      /\ conn_ok (snd (_run_webview tk linesep self evs wk)) = false
  end.
Proof.
  remember (_run_webview tk linesep self evs wk) as out eqn:E.
  unfold _run_webview in E.
  unfold bind at 1, gets at 1 in E. unfold bind at 1, modify at 1 in E.
  match type of E with
  | context [try_finally ?b ?f ?w] =>
      assert (Hb : keeps worker_argv b) by keeps_run_webview_body;
      specialize (Hb w); unfold try_finally in E;
      destruct (b w) as [[[]|e|] w1]
  end; cbn in Hb, E; subst out; cbn; [split; reflexivity..|exact Hb].
Qed.


End RunWebviewFacts.

(** ** More on the controller *)

Section MoreFacadeFacts.

Context {P : Type}.
Variable peer_boot : Config -> list string -> P -> list Response * P.
Variable peer_recv : Request -> P -> list Response * P.

Lemma invoke_not_alive (m : method) (st : Ctl P) :
  _is_alive st = false ->
  invoke peer_recv m st
  = (Raise (Exn RuntimeError "Webview process is not running."),
     bump_request_id st).
Proof.
  intros Hdead. rewrite invoke_unfold. cbv zeta.
  rewrite _send_command_not_alive by exact Hdead.
  destruct m; reflexivity.
Qed.


(** X7. A method on a live instance that reads only responses numbered
    otherwise never ends: it neither returns nor raises, there is no
    timeout, and everything readable has been consumed. *)
Theorem method_blocks_without_matching_response (m : method) (st : Ctl P) :
  _is_alive st = true ->
  Forall (fun x => request_id x <> _request_id st + 1)
    (conn_inbox st
       ++ fst (peer_recv (request_of m (_request_id st + 1)) (peer st))) ->
  fst (invoke peer_recv m st) = Blocked
  /\ conn_inbox (snd (invoke peer_recv m st)) = []
  /\ _is_alive (snd (invoke peer_recv m st)) = true.
Proof.
  intros Halive Hall.
  rewrite invoke_unfold. cbv zeta.
  change (_request_id (bump_request_id st)) with (_request_id st + 1).
  rewrite _send_command_alive by exact Halive.
  rewrite conn_inbox_deliver.
  change (conn_inbox (bump_request_id st)) with (conn_inbox st).
  change (peer (bump_request_id st)) with (peer st).
  rewrite req_id_request_of, _send_command_loop_starved by exact Hall.
  cbn [fst snd].
  split; [reflexivity|]. destruct m; cbn; rewrite ?_is_alive_deliver; auto.
Qed.

(** X8. A response numbered 0, the worker's report of a failed startup,
    does not end a method: with a counter that is not negative (as it is
    in every instance), a method that finds such a response readable drops
    it and goes on exactly as if it had not been there. *)
Theorem method_drops_sentinel (m : method) (st : Ctl P) (r : Response)
    (rest : list Response) :
  0 <= _request_id st ->
  _is_alive st = true ->
  request_id r = 0 ->
  invoke peer_recv m (set_inbox (r :: rest) st)
  = invoke peer_recv m (set_inbox rest st).
Proof.
  intros Hpos Halive Hr.
  rewrite !invoke_unfold. cbv zeta.
  rewrite !_send_command_alive by exact Halive.
  change (_request_id (bump_request_id (set_inbox (r :: rest) st)))
    with (_request_id st + 1).
  change (_request_id (bump_request_id (set_inbox rest st)))
    with (_request_id st + 1).
  rewrite !conn_inbox_deliver, req_id_request_of.
  set (req := request_of m (_request_id st + 1)).
  change (conn_inbox (bump_request_id (set_inbox (r :: rest) st)))
    with (r :: rest).
  change (conn_inbox (bump_request_id (set_inbox rest st))) with rest.
  change (peer (bump_request_id (set_inbox (r :: rest) st))) with (peer st).
  change (peer (bump_request_id (set_inbox rest st))) with (peer st).
  rewrite <- app_comm_cons.
  cbn [_send_command_loop]. rewrite Hr.
  destruct (Z.eqb_spec 0 (_request_id st + 1)) as [H0|_]; [lia|].
  unfold deliver. cbn.
  destruct (peer_recv req (peer st)) as [replies p1]. reflexivity.
Qed.

(** *** [start] *)

Lemma _wait_for_window_loop_passes_over (n : Z) (pre rest : list Response) :
  Forall (passed_over n) pre ->
  _wait_for_window_loop n (pre ++ rest) = _wait_for_window_loop n rest.
Proof.
  induction 1 as [|x pre [Hz Hx] _ IH]; [reflexivity|].
  cbn. destruct (Z.eqb_spec (request_id x) 0); [contradiction|].
  destruct (Z.eqb_spec (request_id x) n) as [Hn|_]; [|exact IH].
  destruct (Hx Hn) as [He|Hres]; [rewrite He; exact IH|].
  destruct (opt_str_truthy (error x)); [exact IH|].
  destruct (result x) as [|[]| | | |]; try exact IH. contradiction.
Qed.

(** The state [start] is in while it waits for the answer to its ping. *)
Lemma start_returns_state (st : Ctl P) (pre post : list Response)
    (r : Response) :
  already_running st = false ->
  spawn_failure st = None ->
  _request_id st + 1 <> 0 ->
  handshake_stream peer_boot peer_recv st = pre ++ r :: post ->
  Forall (passed_over (_request_id st + 1)) pre ->
  request_id r = _request_id st + 1 ->
  opt_str_truthy (error r) = false ->
  result r = PBool true ->
  start peer_boot peer_recv st
  = (Return tt,
     set_argv (sys_argv st)
       (set_inbox post
          (deliver peer_recv (PingRequest (_request_id st + 1))
             (bump_request_id
                (set_is_alive true
                   (boot peer_boot
                      (set_process
                         (Some (mkProcess false (take 1 (sys_argv st))))
                         (set_argv (take 1 (sys_argv st)) st)))))))).
Proof.
  intros Hrun Hos Hn Hstream Hpre Hr Herr Hres.
  rewrite start_unfold, Hrun, Hos. cbv zeta.
  rewrite (start_reads_handshake_stream peer_boot peer_recv), Hstream.
  rewrite _wait_for_window_loop_passes_over by exact Hpre.
  rewrite _wait_for_window_loop_success by assumption.
  reflexivity.
Qed.

(** X9. The handshake of [start]: responses numbered neither 0 nor like
    the ping, answers to the ping that carry an error, and answers whose
    result is not [True] are all read and passed over; the first answer to
    the ping with result [True] and no error ends the wait.  [start] then
    returns with the instance alive, its worker running, [sys.argv] as
    before, exactly one command, the ping, written, and the responses
    behind the answer still unread. *)
Theorem start_completes_handshake (st : Ctl P) (pre post : list Response)
    (r : Response) :
  already_running st = false ->
  spawn_failure st = None ->
  _request_id st + 1 <> 0 ->
  handshake_stream peer_boot peer_recv st = pre ++ r :: post ->
  Forall (passed_over (_request_id st + 1)) pre ->
  request_id r = _request_id st + 1 ->
  opt_str_truthy (error r) = false ->
  result r = PBool true ->
  fst (start peer_boot peer_recv st) = Return tt
  /\ _is_alive (snd (start peer_boot peer_recv st)) = true
  /\ already_running (snd (start peer_boot peer_recv st)) = true
  /\ sys_argv (snd (start peer_boot peer_recv st)) = sys_argv st
  /\ conn_inbox (snd (start peer_boot peer_recv st)) = post
  /\ conn_sent (snd (start peer_boot peer_recv st))
     = conn_sent st ++ [PingRequest (_request_id st + 1)].
Proof.
  intros Hrun Hos Hn Hstream Hpre Hr Herr Hres.
  rewrite (start_returns_state st pre post r) by assumption.
  cbn [fst snd]. split; [reflexivity|].
  cbn. rewrite _is_alive_deliver, conn_sent_deliver.
  unfold deliver, boot, already_running. cbn.
  destruct (peer_boot (config st) (take 1 (sys_argv st)) (peer st))
    as [msgs p1]. cbn.
  destruct (peer_recv (PingRequest (_request_id st + 1)) p1) as [replies p2].
  cbn. repeat split.
Qed.

(** The guard of [start]. *)
Lemma start_already_running (st : Ctl P) :
  already_running st = true ->
  start peer_boot peer_recv st
  = (Raise (Exn RuntimeError "Webview process is already running."), st).
Proof. intros H. rewrite start_unfold, H. reflexivity. Qed.

(** X10. A [start] right after a [start] that returned raises, and leaves
    the instance exactly as the first [start] left it: no identifier is
    drawn, no second worker is spawned, nothing is sent, [sys.argv] is not
    touched. *)
Theorem start_twice_raises (st : Ctl P) :
  fst (start peer_boot peer_recv st) = Return tt ->
  start peer_boot peer_recv (snd (start peer_boot peer_recv st))
  = (Raise (Exn RuntimeError "Webview process is already running."),
     snd (start peer_boot peer_recv st)).
Proof.
  intros Hret. apply start_already_running. revert Hret.
  rewrite start_unfold.
  destruct (already_running st); [discriminate|]. cbv zeta.
  destruct (spawn_failure st); [discriminate|].
  match goal with
  | |- context [_wait_for_window_loop ?n ?l] =>
      destruct (_wait_for_window_loop n l) as [[[]|e|] rest]
  end; cbn [fst snd]; try discriminate.
  intros _. unfold deliver, boot, already_running. cbn.
  destruct (peer_boot (config st) (take 1 (sys_argv st)) (peer st))
    as [msgs p1]. cbn.
  destruct (peer_recv (PingRequest (_request_id st + 1)) p1) as [replies p2].
  reflexivity.
Qed.

(** X11. When the worker process cannot be started, [start] raises the
    operating system's error with [sys.argv] restored; the instance is not
    marked alive, no identifier is drawn, nothing is sent, and a later
    [start] is not refused as already running. *)
Theorem start_spawn_failure (st : Ctl P) (e : exn) :
  already_running st = false ->
  spawn_failure st = Some e ->
  fst (start peer_boot peer_recv st) = Raise e
  /\ sys_argv (snd (start peer_boot peer_recv st)) = sys_argv st
  /\ _is_alive (snd (start peer_boot peer_recv st)) = _is_alive st
  /\ _request_id (snd (start peer_boot peer_recv st)) = _request_id st
  /\ conn_sent (snd (start peer_boot peer_recv st)) = conn_sent st
  /\ peer (snd (start peer_boot peer_recv st)) = peer st
  /\ already_running (snd (start peer_boot peer_recv st)) = false.
Proof.
  intros Hrun Hos. rewrite start_unfold, Hrun, Hos. cbv zeta.
  repeat split.
Qed.

(** *** [close], [join] and [__del__] *)

Lemma join_idle (st : Ctl P) :
  process st = None \/ _is_alive st = false ->
  join st = (Return tt, st).
Proof.
  intros H. unfold join. run_monad.
  destruct (process st) as [pr|]; [|reflexivity].
  destruct H as [H|H]; [discriminate|]. rewrite H. reflexivity.
Qed.

Lemma __del___idle (st : Ctl P) :
  process st = None \/ _is_alive st = false ->
  __del__ peer_recv st = (Return tt, st).
Proof.
  intros H. unfold __del__. unfold bind at 1 2, gets at 1 2.
  destruct (process st) as [pr|]; [|reflexivity].
  destruct H as [H|H]; [discriminate|]. rewrite H. reflexivity.
Qed.

(** X12. After a [close] that returned, the instance is closed for good:
    every method raises at the guard; [join] returns at once and changes
    nothing, without waiting for the worker process (whether or not it
    ever ends); and [__del__] does nothing, so no second [Close] is sent
    and the process is not terminated by it. *)
Theorem after_close (st : Ctl P) (v : pyval) :
  fst (close peer_recv st) = Return v ->
  (forall m : method,
     fst (invoke peer_recv m (snd (close peer_recv st)))
     = Raise (Exn RuntimeError "Webview process is not running."))
  /\ join (snd (close peer_recv st)) = (Return tt, snd (close peer_recv st))
  /\ __del__ peer_recv (snd (close peer_recv st))
     = (Return tt, snd (close peer_recv st)).
Proof.
  intros Hret.
  pose proof (close_returns_not_alive peer_recv st v Hret) as Hdead.
  split; [|split].
  - intros m. rewrite invoke_not_alive by exact Hdead. reflexivity.
  - apply join_idle. right. exact Hdead.
  - apply __del___idle. right. exact Hdead.
Qed.

(** X13. [join] on a started instance: if the worker process ends, [join]
    returns with the instance no longer alive and the process no longer
    running, after which every method raises at the guard and a new
    [start] is not refused; nothing is sent and no identifier is drawn.
    If the worker never ends, [join] does not come back. *)
Theorem join_waits_for_worker (st : Ctl P) (pr : Process) :
  process st = Some pr ->
  is_alive pr = true ->
  _is_alive st = true ->
  if worker_exits st then
    fst (join st) = Return tt
    /\ _is_alive (snd (join st)) = false
    /\ already_running (snd (join st)) = false
    /\ conn_sent (snd (join st)) = conn_sent st
    /\ _request_id (snd (join st)) = _request_id st
    /\ forall m : method,
         fst (invoke peer_recv m (snd (join st)))
         = Raise (Exn RuntimeError "Webview process is not running.")
  else fst (join st) = Blocked /\ _is_alive (snd (join st)) = true.
Proof.
  intros Hp Hpr Halive.
  assert (Hjoin : join st
                  = if worker_exits st
                    then (Return tt, set_is_alive false (reap st))
                    else (Blocked, st)).
  { unfold join, process_join. run_monad. rewrite Hp, Halive. cbn.
    rewrite Hp, Hpr. cbn. destruct (worker_exits st); reflexivity. }
  rewrite Hjoin. destruct (worker_exits st); cbn [fst snd].
  - split; [reflexivity|]. split; [reflexivity|].
    split; [unfold already_running, reap; cbn; rewrite Hp; reflexivity|].
    split; [reflexivity|]. split; [reflexivity|].
    intros m. rewrite invoke_not_alive by reflexivity. reflexivity.
  - split; [reflexivity|exact Halive].
Qed.

(** X14. [__del__] on a started instance first closes it.  If [close]
    returns, the worker process is terminated and the instance is no
    longer alive.  If [close] raises or does not come back, so does
    [__del__], from the state [close] left: [terminate] is not reached and
    the worker process is left as it was. *)
Theorem del_closes_then_terminates (st : Ctl P) (pr : Process) :
  process st = Some pr ->
  _is_alive st = true ->
  match fst (close peer_recv st) with
  | Return _ =>
      fst (__del__ peer_recv st) = Return tt
      /\ _is_alive (snd (__del__ peer_recv st)) = false
      /\ already_running (snd (__del__ peer_recv st)) = false
      /\ conn_sent (snd (__del__ peer_recv st))
         = conn_sent st ++ [CloseRequest (_request_id st + 1)]
  | Raise e =>
      __del__ peer_recv st = (Raise e, snd (close peer_recv st))
      /\ process (snd (close peer_recv st)) = Some pr
  | Blocked =>
      __del__ peer_recv st = (Blocked, snd (close peer_recv st))
      /\ process (snd (close peer_recv st)) = Some pr
  end.
Proof.
  intros Hp Halive.
  assert (Hdel : __del__ peer_recv st
                 = match close peer_recv st with
                   | (Return _, st1) =>
                       (process_terminate ;; process_join)%py st1
                   | (Raise e, st1) => (Raise e, st1)
                   | (Blocked, st1) => (Blocked, st1)
                   end).
  { unfold __del__. unfold bind at 1 2, gets at 1 2. rewrite Hp, Halive.
    unfold bind at 1. destruct (close peer_recv st) as [[v|e|] st1];
      reflexivity. }
  rewrite Hdel. clear Hdel.
  change (close peer_recv) with (invoke peer_recv m_close).
  rewrite invoke_unfold. cbv zeta.
  change (_request_id (bump_request_id st)) with (_request_id st + 1).
  rewrite _send_command_alive by exact Halive.
  cbn [fst snd request_of req_id].
  set (st2 := deliver peer_recv (CloseRequest (_request_id st + 1))
                (bump_request_id st)).
  assert (Hp2 : process st2 = Some pr).
  { subst st2. unfold deliver.
    destruct (peer_recv _ _). cbn. exact Hp. }
  assert (Hs2 : conn_sent st2
                = conn_sent st ++ [CloseRequest (_request_id st + 1)]).
  { subst st2. rewrite conn_sent_deliver. reflexivity. }
  destruct (fst (_send_command_loop (_request_id st + 1) (conn_inbox st2)))
    as [v|e|]; cbn [conclude settle fst snd].
  - unfold process_terminate, process_join. run_monad.
    rewrite Hp2. cbn. unfold already_running. cbn. rewrite Hp2. cbn.
    repeat split. exact Hs2.
  - split; [reflexivity|exact Hp2].
  - split; [reflexivity|exact Hp2].
Qed.

End MoreFacadeFacts.

(** ** More on controller and worker together *)

Section MoreSystemFacts.

Context {G : Type}.
Variable tk : Toolkit G.
Variable linesep : list N.

(** Where a method leaves the peer. *)
Lemma invoke_peer {P : Type} (peer_recv : Request -> P -> list Response * P)
    (m : method) (st : Ctl P) :
  peer (snd (invoke peer_recv m st))
  = if _is_alive st
    then snd (peer_recv (request_of m (_request_id st + 1)) (peer st))
    else peer st.
Proof.
  assert (Hs : forall (o : outcome pyval) (st0 : Ctl P),
             peer (settle m o st0) = peer st0)
    by (intros o st0; destruct m, o; reflexivity).
  destruct (_is_alive st) eqn:Halive.
  - rewrite invoke_unfold. cbv zeta.
    rewrite _send_command_alive by exact Halive.
    cbn [fst snd]. rewrite Hs. cbn. rewrite peer_deliver. reflexivity.
  - rewrite invoke_not_alive by exact Halive. reflexivity.
Qed.

(** What a request handed to the worker does to the toolkit and to the
    files is what its [process] method does, if the poller is there to take
    it; otherwise nothing. *)
Lemma worker_recv_world (request : Request) (wk : Worker G) :
  files (snd (worker_recv tk linesep request wk))
  = (if polling wk && conn_ok wk
     then files (snd (process_request tk linesep request wk))
     else files wk)
  /\ toolkit_state (snd (worker_recv tk linesep request wk))
     = (if polling wk && conn_ok wk
        then toolkit_state (snd (process_request tk linesep request wk))
        else toolkit_state wk).
Proof.
  unfold worker_recv. destruct (polling wk); [|split; reflexivity].
  rewrite handle_commands_step. cbn [andb].
  destruct (conn_ok wk); [|split; reflexivity].
  destruct (reply_of request (fst (process_request tk linesep request wk)));
    split; reflexivity.
Qed.

Lemma process_request_keeps_files (request : Request) :
  match request with
  | SaveFileRequest _ _ _ _ => True
  | _ => keeps files (process_request tk linesep request)
  end.
Proof.
  destruct request; try exact I; cbn [process_request];
    unfold CloseRequest_process, ResizeRequest_process,
      SetTitleRequest_process, ToggleFullscreenRequest_process,
      SetMaximizedRequest_process, PickFileRequest_process,
      EvaluateJavascriptRequest_process, PingRequest_process;
    repeat first
      [ apply keeps_ret
      | apply keeps_call_toolkit; reflexivity
      | apply keeps_bind; [|intros ?]
      | match goal with
        | |- keeps _ (if ?c then _ else _) => destruct c
        end ].
Qed.

(** X15. Only [save_file] writes files: whatever state the instance and
    the worker are in and however the call ends, every other method leaves
    the filesystem exactly as it was. *)
Theorem only_save_file_writes (m : method) (st : Ctl (Worker G)) :
  match m with
  | m_save_file _ _ _ => True
  | _ =>
      files (peer (snd (invoke (worker_recv tk linesep) m st)))
      = files (peer st)
  end.
Proof.
  assert (H : forall request : Request,
             match request with
             | SaveFileRequest _ _ _ _ => True
             | _ =>
                 files (snd (worker_recv tk linesep request (peer st)))
                 = files (peer st)
             end).
  { intros request.
    pose proof (process_request_keeps_files request) as Hk.
    destruct (worker_recv_world request (peer st)) as [Hf _].
    destruct request; try exact I; rewrite Hf, Hk;
      destruct (polling (peer st) && conn_ok (peer st)); reflexivity. }
  destruct m; try exact I; rewrite invoke_peer;
    (destruct (_is_alive st); [|reflexivity]);
    match goal with
    | |- context [worker_recv tk linesep ?rq _] => exact (H rq)
    end.
Qed.

(** The files after [SaveFileRequest.process], whatever the dialog does. *)
Lemma SaveFileRequest_process_other_paths (rid : Z) (c : contents)
    (file_name : string) (directory : option string) (wk : Worker G)
    (p : string) :
  (forall d g,
     window_create_file_dialog tk SAVE_DIALOG
       (if opt_str_truthy directory then py_str_opt directory else "")
       false file_name [] (toolkit_state wk) = (Return d, g) ->
     p <> chosen d) ->
  files (snd (SaveFileRequest_process tk linesep rid c file_name directory wk))
    !! p
  = files wk !! p.
Proof.
  intros Hp.
  destruct (window_create_file_dialog tk SAVE_DIALOG
              (if opt_str_truthy directory then py_str_opt directory else "")
              false file_name [] (toolkit_state wk)) as [[d|e|] g] eqn:Hd.
  - rewrite (SaveFileRequest_process_cases tk linesep rid c file_name
               directory wk d g Hd).
    specialize (Hp d g eq_refl).
    destruct (negb (dialog_truthy d)); [reflexivity|].
    destruct (decide (chosen d ∈ denied wk)); [reflexivity|].
    destruct c as [cps|bs|tyname];
      [destruct (utf8_encode (translate_newlines linesep cps))|..];
      cbn; apply lookup_insert_ne; congruence.
  - unfold SaveFileRequest_process, call_toolkit. run_monad.
    rewrite Hd. reflexivity.
  - unfold SaveFileRequest_process, call_toolkit. run_monad.
    rewrite Hd. reflexivity.
Qed.

(** X16. [save_file] never touches a path other than the one its dialog
    came back with: for every path [p] that is not the dialog's choice
    (every path at all when the dialog raises or hangs), the file at [p] is
    afterwards what it was before, whatever the contents, whatever state
    the system is in and however the call ends. *)
Theorem save_file_touches_only_chosen_path (st : Ctl (Worker G))
    (c : contents) (file_name : string) (directory : option string)
    (p : string) :
  (forall d g,
     window_create_file_dialog tk SAVE_DIALOG
       (match directory with
        | Some s => s
        | None => ""
        end)
       false file_name [] (toolkit_state (peer st)) = (Return d, g) ->
     p <> chosen d) ->
  files (peer (snd (save_file (worker_recv tk linesep) c file_name directory
                      st))) !! p
  = files (peer st) !! p.
Proof.
  intros Hp.
  change (save_file (worker_recv tk linesep) c file_name directory)
    with (invoke (worker_recv tk linesep) (m_save_file c file_name directory)).
  rewrite invoke_peer. destruct (_is_alive st); [|reflexivity].
  destruct (worker_recv_world
              (request_of (m_save_file c file_name directory)
                 (_request_id st + 1)) (peer st)) as [-> _].
  destruct (polling (peer st) && conn_ok (peer st)); [|reflexivity].
  cbn [request_of process_request].
  apply SaveFileRequest_process_other_paths.
  rewrite save_directory. exact Hp.
Qed.


(** X17. [save_file] with bytes: when the dialog comes back with a
    destination that can be opened, exactly the bytes given are the file's
    contents afterwards, on any platform (no encoding, no translation of
    line ends), no other file changes, and [save_file] returns [True]. *)
Theorem save_file_bytes_verbatim (st : Ctl (Worker G)) (bs : list Byte.byte)
    (file_name : string) (directory : option string)
    (d : dialog_result) (g : G) :
  ready st ->
  window_create_file_dialog tk SAVE_DIALOG
    (match directory with
     | Some s => s
     | None => ""
     end)
    false file_name [] (toolkit_state (peer st)) = (Return d, g) ->
  dialog_truthy d = true ->
  chosen d ∉ denied (peer st) ->
  fst (save_file (worker_recv tk linesep) (Bytes bs) file_name directory st)
    = Return (PBool true)
  /\ files (peer (snd (save_file (worker_recv tk linesep) (Bytes bs)
                         file_name directory st)))
     = <[chosen d := bs]> (files (peer st)).
Proof.
  intros Hready Hd Htruthy Hopen.
  change (save_file (worker_recv tk linesep) (Bytes bs) file_name directory)
    with (invoke (worker_recv tk linesep)
            (m_save_file (Bytes bs) file_name directory)).
  rewrite <- save_directory in Hd.
  pose proof (SaveFileRequest_process_cases tk linesep (_request_id st + 1)
                (Bytes bs) file_name _ (peer st) d g Hd) as Hproc.
  rewrite Htruthy in Hproc. cbn [negb] in Hproc.
  destruct (decide (chosen d ∈ denied (peer st))); [contradiction|].
  change (SaveFileRequest_process tk linesep (_request_id st + 1) (Bytes bs)
            file_name (if opt_str_truthy directory then directory else None))
    with (process_request tk linesep
            (request_of (m_save_file (Bytes bs) file_name directory)
               (_request_id st + 1))) in Hproc.
  destruct (ready_invoke tk linesep
              (m_save_file (Bytes bs) file_name directory) st
              (mkResponse (_request_id st + 1) (PBool true) None) Hready)
    as [-> ->]; [rewrite Hproc; reflexivity|].
  rewrite Hproc. split; reflexivity.
Qed.

(** X18. [save_file] on a destination that cannot be opened: [open] raises
    in the worker, [save_file] raises [WebViewException] whose text is the
    text of that error, and no file is created or changed. *)
Theorem save_file_open_refused (st : Ctl (Worker G)) (c : contents)
    (file_name : string) (directory : option string)
    (d : dialog_result) (g : G) :
  ready st ->
  window_create_file_dialog tk SAVE_DIALOG
    (match directory with
     | Some s => s
     | None => ""
     end)
    false file_name [] (toolkit_state (peer st)) = (Return d, g) ->
  dialog_truthy d = true ->
  chosen d ∈ denied (peer st) ->
  fst (open_for_writing (chosen d) (set_toolkit_state g (peer st)))
    = Raise (Exn OSError ("cannot open " +:+ chosen d))
  /\ fst (save_file (worker_recv tk linesep) c file_name directory st)
     = Raise (Exn WebViewException
                (exn_msg (Exn OSError ("cannot open " +:+ chosen d))))
  /\ files (peer (snd (save_file (worker_recv tk linesep) c file_name
                         directory st)))
     = files (peer st).
Proof.
  intros Hready Hd Htruthy Hdenied.
  split.
  { unfold open_for_writing. run_monad.
    destruct (decide (chosen d ∈ denied (peer st))); [|contradiction].
    reflexivity. }
  change (save_file (worker_recv tk linesep) c file_name directory)
    with (invoke (worker_recv tk linesep) (m_save_file c file_name directory)).
  rewrite <- save_directory in Hd.
  pose proof (SaveFileRequest_process_cases tk linesep (_request_id st + 1)
                c file_name _ (peer st) d g Hd) as Hproc.
  rewrite Htruthy in Hproc. cbn [negb] in Hproc.
  destruct (decide (chosen d ∈ denied (peer st))); [|contradiction].
  change (SaveFileRequest_process tk linesep (_request_id st + 1) c
            file_name (if opt_str_truthy directory then directory else None))
    with (process_request tk linesep
            (request_of (m_save_file c file_name directory)
               (_request_id st + 1))) in Hproc.
  destruct (ready_invoke tk linesep (m_save_file c file_name directory) st
              (mkResponse (_request_id st + 1) PNone
                 (Some ("cannot open " +:+ chosen d))) Hready)
    as [-> ->]; [rewrite Hproc; reflexivity|].
  rewrite Hproc. split; reflexivity.
Qed.

(** X19. [evaluate_javascript] hands back what the window's [evaluate_js]
    returned, unchanged. *)
Theorem evaluate_javascript_returns_value (st : Ctl (Worker G))
    (js_code : string) (v : pyval) (g : G) :
  ready st ->
  window_evaluate_js tk js_code (toolkit_state (peer st)) = (Return v, g) ->
  fst (evaluate_javascript (worker_recv tk linesep) js_code st) = Return v
  /\ toolkit_state
       (peer (snd (evaluate_javascript (worker_recv tk linesep) js_code st)))
     = g.
Proof.
  intros Hready Hjs.
  change (evaluate_javascript (worker_recv tk linesep) js_code)
    with (invoke (worker_recv tk linesep) (m_evaluate_javascript js_code)).
  assert (Hproc :
            process_request tk linesep
              (request_of (m_evaluate_javascript js_code) (_request_id st + 1))
              (peer st)
            = (Return (mkResponse (_request_id st + 1) v None),
               set_toolkit_state g (peer st))).
  { cbn. unfold EvaluateJavascriptRequest_process, call_toolkit. run_monad.
    rewrite Hjs. reflexivity. }
  destruct (ready_invoke tk linesep (m_evaluate_javascript js_code) st
              (mkResponse (_request_id st + 1) v None) Hready)
    as [-> ->]; [rewrite Hproc; reflexivity|].
  rewrite Hproc. split; reflexivity.
Qed.


End MoreSystemFacts.

(** ** What reaches the toolkit *)

Section LoggingFacts.

Variable op : outcome unit.
Variable dialog : outcome dialog_result.
Variable js : outcome pyval.
Variable loop : outcome unit.
Variable linesep : list N.



(** The calls [_run_webview] makes, in terms of the fields it reads. *)
Lemma _run_webview_calls (self : Config)
    (wk : Worker (list toolkit_call)) :
  op = Return tt ->
  conn_ok wk = true ->
  toolkit_state
    (snd (_run_webview (recording_toolkit op dialog js loop) linesep self []
            wk))
  = toolkit_state wk
    ++ [CallCreateWindow (title self) (url self)
          (match width self with
           | Some 0 | None => 800
           | Some w => w
           end)
          (match height self with
           | Some 0 | None => 600
           | Some h => h
           end)]
    ++ (if maximized self then [CallMaximize] else [])
    ++ (if fullscreen self then [CallToggleFullscreen] else [])
    ++ [CallStart (gui self) (debug self)
          (match icon_path self with
           | Some "" | None => None
           | Some i => Some i
           end)]
  /\ conn_out
       (snd (_run_webview (recording_toolkit op dialog js loop) linesep self
               [] wk))
     = conn_out wk
       ++ match loop with
          | Raise e => [mkResponse 0 PNone (Some (exn_msg e))]
          | _ => []
          end.
Proof.
  intros -> Hok.
  unfold _run_webview, call_toolkit, start_thread, conn_send, conn_close.
  run_monad. unfold logged.
  destruct self as [u t w h icon mx fs g dbg]; cbn.
  assert (Hw : (match w with Some w0 => if w0 =? 0 then 800 else w0
                | None => 800 end)
               = match w with Some 0 | None => 800 | Some w0 => w0 end)
    by (destruct w as [[| |]|]; reflexivity).
  assert (Hh : (match h with Some h0 => if h0 =? 0 then 600 else h0
                | None => 600 end)
               = match h with Some 0 | None => 600 | Some h0 => h0 end)
    by (destruct h as [[| |]|]; reflexivity).
  assert (Hi : (if opt_str_truthy icon then icon else None)
               = match icon with Some "" | None => None | Some i => Some i end)
    by (destruct icon as [[|]|]; reflexivity).
  rewrite Hw, Hh, Hi.
  destruct mx, fs, loop as [[]|e|]; cbn; rewrite ?Hok; cbn;
    rewrite <- ?app_assoc, ?app_nil_r; split; reflexivity.
Qed.

(** X22. The calls [_run_webview] makes on an instance constructed with
    the arguments [args] (width and height integral), when every window
    operation succeeds and no request arrives: it creates the window with
    the title and URL given, 800 by 600 unless a width or height other than
    zero was given, maximizes it if asked to, toggles fullscreen if asked
    to, and then enters the event loop, to which it passes as icon the
    text of the [pathlib.Path] that [__post_init__] made of a non-empty
    [icon_path], and [None] if the [icon_path] was empty or [None].  If the
    event loop raises, one response numbered 0 with the failure's text is
    written; otherwise none is. *)
Theorem run_webview_startup_calls (path_str : string -> string)
    (args : Config) (wk : Worker (list toolkit_call)) :
  (forall s : string, s <> "" -> path_str s <> "") ->
  op = Return tt ->
  conn_ok wk = true ->
  toolkit_state
    (snd (_run_webview (recording_toolkit op dialog js loop) linesep
            (__post_init__ path_str args) [] wk))
  = toolkit_state wk
    ++ [CallCreateWindow (title args) (url args)
          (match width args with
           | Some 0 | None => 800
           | Some w => w
           end)
          (match height args with
           | Some 0 | None => 600
           | Some h => h
           end)]
    ++ (if maximized args then [CallMaximize] else [])
    ++ (if fullscreen args then [CallToggleFullscreen] else [])
    ++ [CallStart (gui args) (debug args)
          (match icon_path args with
           | Some "" | None => None
           | Some i => Some (path_str i)
           end)]
  /\ conn_out
       (snd (_run_webview (recording_toolkit op dialog js loop) linesep
               (__post_init__ path_str args) [] wk))
     = conn_out wk
       ++ match loop with
          | Raise e => [mkResponse 0 PNone (Some (exn_msg e))]
          | _ => []
          end.
Proof.
  intros Hpath Hop Hok.
  destruct (_run_webview_calls (__post_init__ path_str args) wk Hop Hok)
    as [Hcalls Hout].
  split; [|exact Hout].
  rewrite Hcalls. cbn [__post_init__ title url width height maximized
                         fullscreen gui debug icon_path].
  assert (Hi : match (if opt_str_truthy (icon_path args)
                      then option_map path_str (icon_path args)
                      else icon_path args) with
               | Some "" | None => None
               | Some i => Some i
               end
               = match icon_path args with
                 | Some "" | None => None
                 | Some i => Some (path_str i)
                 end).
  { destruct (icon_path args) as [[|a i]|]; cbn; try reflexivity.
    pose proof (Hpath (String a i)) as Hne.
    destruct (path_str (String a i)); [|reflexivity].
    exfalso. apply Hne; [discriminate|reflexivity]. }
  rewrite Hi. reflexivity.
Qed.

End LoggingFacts.

(** ** The further properties at concrete inputs *)

Lemma poller_stops_at_sentinel_or_hangup_witness :
  handle_commands demo_toolkit [10%N]
    ([Quiet; Quiet] ++ Incoming None :: [Incoming (Some (PingRequest 5))])
    (demo_worker ∅)
  = (Return Finished, set_polling false (demo_worker ∅)).
Proof.
  exact (poller_stops_at_sentinel_or_hangup demo_toolkit [10%N] 2
           (Incoming None) [Incoming (Some (PingRequest 5))] (demo_worker ∅)
           (or_introl eq_refl)).
Defined.

Lemma demo_toolkit_responsive : responsive demo_toolkit.
Proof. repeat split; intros; discriminate. Defined.

Lemma poller_answers_every_request_witness :
  fst (handle_commands demo_toolkit [10%N]
         [Incoming (Some (PingRequest 1)); Quiet;
          Incoming (Some (SetTitleRequest 2 "t"));
          Incoming (Some (EvaluateJavascriptRequest 3 "2+2"))]
         (demo_worker ∅))
    = Return Waiting
  /\ exists rs,
       conn_out
         (snd (handle_commands demo_toolkit [10%N]
                 [Incoming (Some (PingRequest 1)); Quiet;
                  Incoming (Some (SetTitleRequest 2 "t"));
                  Incoming (Some (EvaluateJavascriptRequest 3 "2+2"))]
                 (demo_worker ∅)))
       = conn_out (demo_worker ∅) ++ rs
       /\ map request_id rs = [1; 2; 3].
Proof.
  assert (Hevs : Forall (fun ev => ev <> Incoming None /\ ev <> Hangup)
                   [Incoming (Some (PingRequest 1)); Quiet;
                    Incoming (Some (SetTitleRequest 2 "t"));
                    Incoming (Some (EvaluateJavascriptRequest 3 "2+2"))])
    by (repeat constructor; discriminate).
  pose proof (poller_answers_every_request demo_toolkit [10%N] _
                (demo_worker ∅) demo_toolkit_responsive eq_refl Hevs) as H.
  exact (conj (proj1 H) (proj2 (proj2 (proj2 H)))).
Defined.


Lemma method_blocks_without_matching_response_witness :
  fst (invoke scripted_recv (m_resize 800 600)
         (demo_started [[stale_response; extra_response]]))
    = Blocked
  /\ conn_inbox (snd (invoke scripted_recv (m_resize 800 600)
                        (demo_started [[stale_response; extra_response]])))
     = [].
Proof.
  assert (Hall : Forall (fun x => request_id x <> 1 + 1)
                   [stale_response; extra_response])
    by (repeat constructor; intros H; vm_compute in H; discriminate H).
  pose proof (method_blocks_without_matching_response scripted_recv
                (m_resize 800 600)
                (demo_started [[stale_response; extra_response]])
                eq_refl Hall) as H.
  exact (conj (proj1 H) (proj1 (proj2 H))).
Defined.

Lemma method_drops_sentinel_witness :
  invoke scripted_recv m_toggle_fullscreen
    (set_inbox [mkResponse 0 PNone (Some "late failure")]
       (demo_started [[mkResponse 2 (PBool true) None]]))
  = invoke scripted_recv m_toggle_fullscreen
      (set_inbox [] (demo_started [[mkResponse 2 (PBool true) None]])).
Proof.
  assert (Hpos : 0 <= 1) by (intros H; discriminate H).
  exact (method_drops_sentinel scripted_recv m_toggle_fullscreen
           (demo_started [[mkResponse 2 (PBool true) None]])
           (mkResponse 0 PNone (Some "late failure")) [] Hpos eq_refl eq_refl).
Defined.

Lemma start_completes_handshake_witness :
  fst (start scripted_boot scripted_recv demo_unstarted) = Return tt
  /\ conn_inbox (snd (start scripted_boot scripted_recv demo_unstarted))
     = [extra_response].
Proof.
  assert (Hn : 0 + 1 <> 0) by (intros H; discriminate H).
  assert (Hpre : Forall (passed_over (0 + 1))
                   [stale_response; mkResponse 1 PNone (Some "not yet")]).
  { constructor; [|constructor; [|constructor]]; split.
    - intros H; vm_compute in H; discriminate H.
    - intros H; vm_compute in H; discriminate H.
    - intros H; vm_compute in H; discriminate H.
    - intros _. left. reflexivity. }
  pose proof (start_completes_handshake scripted_boot scripted_recv
                demo_unstarted
                [stale_response; mkResponse 1 PNone (Some "not yet")]
                [extra_response] (mkResponse 1 (PBool true) None)
                eq_refl eq_refl Hn eq_refl Hpre eq_refl eq_refl eq_refl) as H.
  exact (conj (proj1 H) (proj1 (proj2 (proj2 (proj2 (proj2 H)))))).
Defined.

Lemma start_twice_raises_witness :
  fst (start scripted_boot scripted_recv demo_unstarted) = Return tt
  /\ fst (start scripted_boot scripted_recv
            (snd (start scripted_boot scripted_recv demo_unstarted)))
     = Raise (Exn RuntimeError "Webview process is already running.").
Proof.
  assert (Hret : fst (start scripted_boot scripted_recv demo_unstarted)
                 = Return tt) by (vm_compute; reflexivity).
  exact (conj Hret
           (f_equal fst
              (start_twice_raises scripted_boot scripted_recv demo_unstarted
                 Hret))).
Defined.

Lemma start_spawn_failure_witness :
  fst (start scripted_boot scripted_recv
         (new_instance demo_config ["app.py"; "-v"] []
            (Some (Exn OSError "Cannot allocate memory")) true))
    = Raise (Exn OSError "Cannot allocate memory")
  /\ sys_argv (snd (start scripted_boot scripted_recv
                      (new_instance demo_config ["app.py"; "-v"] []
                         (Some (Exn OSError "Cannot allocate memory")) true)))
     = ["app.py"; "-v"].
Proof.
  pose proof (start_spawn_failure scripted_boot scripted_recv
                (new_instance demo_config ["app.py"; "-v"] []
                   (Some (Exn OSError "Cannot allocate memory")) true)
                (Exn OSError "Cannot allocate memory") eq_refl eq_refl) as H.
  exact (conj (proj1 H) (proj1 (proj2 H))).
Defined.

Lemma after_close_witness :
  fst (close scripted_recv (demo_started [[mkResponse 2 (PBool true) None]]))
    = Return PNone
  /\ fst (invoke scripted_recv (m_set_title "late")
            (snd (close scripted_recv
                    (demo_started [[mkResponse 2 (PBool true) None]]))))
     = Raise (Exn RuntimeError "Webview process is not running.").
Proof.
  assert (Hret : fst (close scripted_recv
                        (demo_started [[mkResponse 2 (PBool true) None]]))
                 = Return PNone) by (vm_compute; reflexivity).
  exact (conj Hret
           (proj1 (after_close scripted_recv
                     (demo_started [[mkResponse 2 (PBool true) None]])
                     PNone Hret)
              (m_set_title "late"))).
Defined.

Lemma join_waits_for_worker_witness :
  fst (join (demo_started (@nil (list Response)))) = Return tt
  /\ _is_alive (snd (join (demo_started (@nil (list Response))))) = false.
Proof.
  pose proof (join_waits_for_worker scripted_recv
                (demo_started (@nil (list Response)))
                (mkProcess true ["app.py"]) eq_refl eq_refl eq_refl) as H.
  exact (conj (proj1 H) (proj1 (proj2 H))).
Defined.

Lemma del_closes_then_terminates_witness :
  fst (__del__ scripted_recv
         (demo_started [[mkResponse 2 (PBool true) None]]))
    = Return tt
  /\ already_running
       (snd (__del__ scripted_recv
               (demo_started [[mkResponse 2 (PBool true) None]])))
     = false.
Proof.
  pose proof (del_closes_then_terminates scripted_recv
                (demo_started [[mkResponse 2 (PBool true) None]])
                (mkProcess true ["app.py"]) eq_refl eq_refl) as H.
  exact (conj (proj1 H) (proj1 (proj2 (proj2 H)))).
Defined.

Lemma save_file_touches_only_chosen_path_witness :
  files (peer (snd (save_file (worker_recv demo_save_toolkit [10%N])
                      (Other "tuple") "out.txt" None
                      (demo_started
                         (demo_worker
                            {["out.txt" := bytes_of "old";
                              "keep.txt" := bytes_of "kept"]})))))
    !! "keep.txt"
  = Some (bytes_of "kept").
Proof.
  assert (Hp : forall d g,
             window_create_file_dialog demo_save_toolkit SAVE_DIALOG ""
               false "out.txt" [] tt = (Return d, g) ->
             "keep.txt" <> chosen d)
    by (intros d g [= <- _] H; discriminate H).
  exact (eq_trans
           (save_file_touches_only_chosen_path demo_save_toolkit [10%N]
              (demo_started
                 (demo_worker
                    {["out.txt" := bytes_of "old";
                      "keep.txt" := bytes_of "kept"]}))
              (Other "tuple") "out.txt" None "keep.txt" Hp)
           eq_refl).
Defined.

Lemma save_file_bytes_verbatim_witness :
  fst (save_file (worker_recv demo_save_toolkit [13; 10]%N)
         (Bytes (map byte_of_N [0x61; 10; 0xFF]%N)) "out.txt" None
         (demo_started (demo_worker ∅)))
    = Return (PBool true)
  /\ files (peer (snd (save_file (worker_recv demo_save_toolkit [13; 10]%N)
                         (Bytes (map byte_of_N [0x61; 10; 0xFF]%N))
                         "out.txt" None (demo_started (demo_worker ∅)))))
     = <["out.txt" := map byte_of_N [0x61; 10; 0xFF]%N]> ∅.
Proof.
  assert (Hready : ready (demo_started (demo_worker ∅))) by (repeat split).
  exact (save_file_bytes_verbatim demo_save_toolkit [13; 10]%N
           (demo_started (demo_worker ∅))
           (map byte_of_N [0x61; 10; 0xFF]%N) "out.txt" None
           (DStr "out.txt") tt Hready eq_refl eq_refl
           (not_elem_of_empty (C:=gset string) "out.txt")).
Defined.

Lemma save_file_open_refused_witness :
  fst (save_file
         (worker_recv
            (fixed_toolkit (Return tt) (Return (DStr "locked.txt"))
               (Return PNone))
            [10%N])
         (Text (text_of "new")) "locked.txt" None
         (demo_started demo_locked_worker))
  = Raise (Exn WebViewException "cannot open locked.txt")
  /\ files (peer (snd (save_file
                         (worker_recv
                            (fixed_toolkit (Return tt)
                               (Return (DStr "locked.txt")) (Return PNone))
                            [10%N])
                         (Text (text_of "new")) "locked.txt" None
                         (demo_started demo_locked_worker))))
     = {["locked.txt" := bytes_of "old"]}.
Proof.
  assert (Hready : ready (demo_started demo_locked_worker))
    by (repeat split).
  assert (Hdenied : "locked.txt" ∈ denied (peer (demo_started demo_locked_worker)))
    by (apply elem_of_singleton; reflexivity).
  exact (proj2
           (save_file_open_refused
              (fixed_toolkit (Return tt) (Return (DStr "locked.txt"))
                 (Return PNone))
              [10%N] (demo_started demo_locked_worker) (Text (text_of "new"))
              "locked.txt" None (DStr "locked.txt") tt Hready eq_refl eq_refl
              Hdenied)).
Defined.

Lemma evaluate_javascript_returns_value_witness :
  fst (evaluate_javascript (worker_recv demo_toolkit [10%N]) "2+2"
         (demo_started (demo_worker ∅)))
  = Return (PInt 4).
Proof.
  assert (Hready : ready (demo_started (demo_worker ∅))) by (repeat split).
  exact (proj1
           (evaluate_javascript_returns_value demo_toolkit [10%N]
              (demo_started (demo_worker ∅)) "2+2" (PInt 4) tt Hready
              eq_refl)).
Defined.



Lemma run_webview_startup_calls_witness :
  (forall s : string, s <> "" -> demo_path_str s <> "")
  /\ toolkit_state
       (snd (_run_webview
               (recording_toolkit (Return tt) (Return DNone) (Return PNone)
                  (Raise (Exn ToolkitError "no backend")))
               [10%N]
               (__post_init__ demo_path_str
                  (mkConfig "http://test" "Test" (Some 1024) None
                     (Some "./icons//app.png") true false None false))
               [] (logging_worker [])))
     = [CallCreateWindow "Test" "http://test" 1024 600; CallMaximize;
        CallStart None false (Some "icons/app.png")]
  /\ conn_out
       (snd (_run_webview
               (recording_toolkit (Return tt) (Return DNone) (Return PNone)
                  (Raise (Exn ToolkitError "no backend")))
               [10%N]
               (__post_init__ demo_path_str
                  (mkConfig "http://test" "Test" (Some 1024) None
                     (Some "./icons//app.png") true false None false))
               [] (logging_worker [])))
     = [mkResponse 0 PNone (Some "no backend")].
Proof.
  assert (Hpath : forall s : string, s <> "" -> demo_path_str s <> "").
  { intros s Hs. unfold demo_path_str.
    destruct (String.eqb s "./icons//app.png"); [discriminate|exact Hs]. }
  exact (conj Hpath
           (run_webview_startup_calls (Return tt) (Return DNone) (Return PNone)
              (Raise (Exn ToolkitError "no backend")) [10%N] demo_path_str
              (mkConfig "http://test" "Test" (Some 1024) None
                 (Some "./icons//app.png") true false None false)
              (logging_worker []) Hpath eq_refl eq_refl)).
Defined.
